(** * Upload broker of the secure multimedia storage back end

    A shallow embedding of [src/backend/upload.py]: file validation, file-id
    generation, signed-URL issuance, the DynamoDB metadata table and the
    Lambda [handler] that routes the three upload operations.

    Python strings are modelled as [string], one character per code point
    below 256.  Python values that come out of [json.loads] are modelled by
    the type [json] (integers only, no floating point numbers). *)

From Stdlib Require Import String Ascii List ZArith NArith Bool Lia.
From stdpp Require Import base option gmap strings pretty.
Import ListNotations.

Local Open Scope string_scope.

(** ** Python string primitives *)

Module PyStr.

Definition code (c : ascii) : N := N_of_ascii c.

(** [str.lower] on code points below 256: A..Z and the Latin-1 capitals
    (U+00C0..U+00DE, except the multiplication sign U+00D7) move up by 32. *)
Definition lower_char (c : ascii) : ascii :=
  let n := code c in
  if ((65 <=? n) && (n <=? 90))%N then ascii_of_N (n + 32)
  else if ((192 <=? n) && (n <=? 222) && negb (n =? 215))%N then ascii_of_N (n + 32)
  else c.

Fixpoint lower (s : string) : string :=
  match s with
  | EmptyString => EmptyString
  | String c r => String (lower_char c) (lower r)
  end.

(** [s.startswith(p)] *)
Definition startswith (p s : string) : bool := String.prefix p s.

(** [s[n:]] *)
Fixpoint drop (n : nat) (s : string) : string :=
  match n, s with
  | O, _ => s
  | S _, EmptyString => EmptyString
  | S m, String _ r => drop m r
  end.

(** [s[:n]] *)
Fixpoint take (n : nat) (s : string) : string :=
  match n, s with
  | O, _ => EmptyString
  | S _, EmptyString => EmptyString
  | S m, String c r => String c (take m r)
  end.

(** [s.split(sep)] for a one-character separator: every occurrence of
    the separator cuts, so consecutive separators give empty pieces. *)
Fixpoint split (sep : ascii) (s : string) : list string :=
  match s with
  | EmptyString => [EmptyString]
  | String c r =>
      if Ascii.eqb c sep then EmptyString :: split sep r
      else match split sep r with
           | [] => [String c EmptyString]
           | h :: t => String c h :: t
           end
  end.

(** [s.rfind(c)]: index of the last occurrence, [None] for Python's -1. *)
Fixpoint rfind (c : ascii) (s : string) : option nat :=
  match s with
  | EmptyString => None
  | String d r =>
      match rfind c r with
      | Some i => Some (S i)
      | None => if Ascii.eqb d c then Some O else None
      end
  end.

(** Is there a character different from [c] in [s[lo:hi]]? *)
Fixpoint has_other (c : ascii) (lo hi : nat) (s : string) : bool :=
  match s with
  | EmptyString => false
  | String d r =>
      match hi with
      | O => false
      | S hi' =>
          match lo with
          | O => negb (Ascii.eqb d c) || has_other c O hi' r
          | S lo' => has_other c lo' hi' r
          end
      end
  end.

(** [os.path.splitext(p)] of posixpath: the extension starts at the last
    dot, provided that dot comes after the last slash and some character
    between the two is not a dot; otherwise the extension is empty. *)
Definition splitext (p : string) : string * string :=
  let filenameIndex := match rfind "/" p with Some i => S i | None => O end in
  match rfind "." p with
  | Some dotIndex =>
      if has_other "." filenameIndex dotIndex p
      then (take dotIndex p, drop dotIndex p)
      else (p, EmptyString)
  | None => (p, EmptyString)
  end.

(** [s.encode()]: UTF-8 of code points below 256. *)
Definition encode_char (c : ascii) : list N :=
  let n := code c in
  if (n <? 128)%N then [n]
  else [N.lor 192 (N.shiftr n 6); N.lor 128 (N.land n 63)].

Fixpoint encode (s : string) : list N :=
  match s with
  | EmptyString => []
  | String c r => encode_char c ++ encode r
  end.

Definition hex_digit (n : N) : ascii :=
  if (n <? 10)%N then ascii_of_N (48 + n) else ascii_of_N (87 + n).

Definition hex_byte (b : N) : string :=
  String (hex_digit (N.shiftr b 4)) (String (hex_digit (N.land b 15)) EmptyString).

End PyStr.

(** ** MD5 (RFC 1321), as computed by [hashlib.md5(...).hexdigest()] *)

Module MD5.

Local Open Scope N_scope.

Definition mask32 : N := 0xFFFFFFFF.
Definition add32 (a b : N) : N := N.land (a + b) mask32.
Definition not32 (a : N) : N := N.lxor a mask32.
Definition rotl32 (x c : N) : N :=
  N.land (N.lor (N.shiftl x c) (N.shiftr x (32 - c))) mask32.

Definition K : list N :=
  [ 0xd76aa478; 0xe8c7b756; 0x242070db; 0xc1bdceee; 0xf57c0faf; 0x4787c62a;
    0xa8304613; 0xfd469501; 0x698098d8; 0x8b44f7af; 0xffff5bb1; 0x895cd7be;
    0x6b901122; 0xfd987193; 0xa679438e; 0x49b40821; 0xf61e2562; 0xc040b340;
    0x265e5a51; 0xe9b6c7aa; 0xd62f105d; 0x02441453; 0xd8a1e681; 0xe7d3fbc8;
    0x21e1cde6; 0xc33707d6; 0xf4d50d87; 0x455a14ed; 0xa9e3e905; 0xfcefa3f8;
    0x676f02d9; 0x8d2a4c8a; 0xfffa3942; 0x8771f681; 0x6d9d6122; 0xfde5380c;
    0xa4beea44; 0x4bdecfa9; 0xf6bb4b60; 0xbebfbc70; 0x289b7ec6; 0xeaa127fa;
    0xd4ef3085; 0x04881d05; 0xd9d4d039; 0xe6db99e5; 0x1fa27cf8; 0xc4ac5665;
    0xf4292244; 0x432aff97; 0xab9423a7; 0xfc93a039; 0x655b59c3; 0x8f0ccc92;
    0xffeff47d; 0x85845dd1; 0x6fa87e4f; 0xfe2ce6e0; 0xa3014314; 0x4e0811a1;
    0xf7537e82; 0xbd3af235; 0x2ad7d2bb; 0xeb86d391 ].

Definition shifts : list N :=
  [ 7; 12; 17; 22; 7; 12; 17; 22; 7; 12; 17; 22; 7; 12; 17; 22;
    5; 9; 14; 20; 5; 9; 14; 20; 5; 9; 14; 20; 5; 9; 14; 20;
    4; 11; 16; 23; 4; 11; 16; 23; 4; 11; 16; 23; 4; 11; 16; 23;
    6; 10; 15; 21; 6; 10; 15; 21; 6; 10; 15; 21; 6; 10; 15; 21 ].

(** Little-endian bytes of a word. *)
Fixpoint le_bytes (n : nat) (w : N) : list N :=
  match n with
  | O => []
  | S m => N.land w 255 :: le_bytes m (N.shiftr w 8)
  end.

(** Padding: a 1 bit, zeros up to 56 modulo 64, the bit length on 64 bits. *)
Definition pad (msg : list N) : list N :=
  let len := N.of_nat (List.length msg) in
  let zeros := (119 - len mod 64) mod 64 in
  msg ++ [128] ++ List.repeat 0 (N.to_nat zeros)
      ++ le_bytes 8 (N.land (8 * len) 0xFFFFFFFFFFFFFFFF).

Fixpoint words (fuel : nat) (bs : list N) : list N :=
  match fuel, bs with
  | S f, b0 :: b1 :: b2 :: b3 :: r =>
      (b0 + N.shiftl b1 8 + N.shiftl b2 16 + N.shiftl b3 24) :: words f r
  | _, _ => []
  end.

Definition state : Type := N * N * N * N.

Definition round (M : list N) (st : state) (i : nat) : state :=
  let '(A, B, C, D) := st in
  let j := N.of_nat i in
  let '(F, g) :=
    if j <? 16 then (N.lor (N.land B C) (N.land (not32 B) D), j)
    else if j <? 32 then (N.lor (N.land D B) (N.land (not32 D) C), (5 * j + 1) mod 16)
    else if j <? 48 then (N.lxor (N.lxor B C) D, (3 * j + 5) mod 16)
    else (N.lxor C (N.lor B (not32 D)), (7 * j) mod 16) in
  let F' := add32 (add32 (add32 F A) (nth i K 0)) (nth (N.to_nat g) M 0) in
  (D, add32 B (rotl32 F' (nth i shifts 0)), B, C).

Definition chunk (st : state) (M : list N) : state :=
  let '(a0, b0, c0, d0) := st in
  let '(A, B, C, D) := fold_left (round M) (seq 0 64) st in
  (add32 a0 A, add32 b0 B, add32 c0 C, add32 d0 D).

Fixpoint chunks (fuel : nat) (ws : list N) (st : state) : state :=
  match fuel, ws with
  | S f, _ :: _ => chunks f (skipn 16 ws) (chunk st (firstn 16 ws))
  | _, _ => st
  end.

Definition init : state := (0x67452301, 0xefcdab89, 0x98badcfe, 0x10325476).

Definition digest (msg : list N) : list N :=
  let p := pad msg in
  let ws := words (List.length p) p in
  let '(A, B, C, D) := chunks (List.length ws) ws init in
  le_bytes 4 A ++ le_bytes 4 B ++ le_bytes 4 C ++ le_bytes 4 D.

Definition hexdigest (msg : list N) : string :=
  fold_right (fun b acc => String.append (PyStr.hex_byte b) acc) EmptyString (digest msg).

End MD5.

(** ** Python values *)

(** What [json.loads] produces and what the handlers pass around.  A
    dictionary is the list of its entries in insertion order, keys unique.
    The numbers are the integers: a number with a fraction or an exponent,
    which [json.loads] reads as a [float], has no constructor, so nothing
    below speaks of a request that holds one. *)
#[warnings="-register-all"]
Inductive json : Type :=
| JNull
| JBool (b : bool)
| JInt (z : Z)
| JStr (s : string)
| JArr (l : list json)
| JObj (kvs : list (string * json)).

Inductive exn : Type :=
| AttributeError
| TypeError
| IndexError
| JSONDecodeError
| ClientError (code : string)
| OtherError (msg : string).

(** A Python computation that touches no collaborator: a value or a raised
    exception. *)
Inductive outcome (A : Type) : Type :=
| Ret (a : A)
| Raise (e : exn).
Arguments Ret {A} a.
Arguments Raise {A} e.

#[global] Instance outcome_ret : MRet outcome := fun _ a => Ret a.
#[global] Instance outcome_bind : MBind outcome := fun _ _ f m =>
  match m with
  | Ret a => f a
  | Raise e => Raise e
  end.

Module Py.

(** [bool(v)] *)
Definition truthy (v : json) : bool :=
  match v with
  | JNull => false
  | JBool b => b
  | JInt z => negb (z =? 0)%Z
  | JStr s => negb (String.eqb s "")
  | JArr l => match l with [] => false | _ => true end
  | JObj kvs => match kvs with [] => false | _ => true end
  end.

Fixpoint dict_get (kvs : list (string * json)) (k : string) : option json :=
  match kvs with
  | [] => None
  | (k', v) :: r => if String.eqb k' k then Some v else dict_get r k
  end.

(** [d.get(k, default)]; only dictionaries have [get]. *)
Definition get (d : json) (k : string) (dflt : json) : outcome json :=
  match d with
  | JObj kvs => Ret (default dflt (dict_get kvs k))
  | _ => Raise AttributeError
  end.

(** [v == s] for a string literal [s] *)
Definition eq_str (v : json) (s : string) : bool :=
  match v with
  | JStr t => String.eqb t s
  | _ => false
  end.

(** [v > n] for an integer [n]: booleans compare as 0 and 1, everything
    else that is not a number raises [TypeError]. *)
Definition gt_int (v : json) (n : Z) : outcome bool :=
  match v with
  | JInt z => Ret (n <? z)%Z
  | JBool b => Ret (n <? (if b then 1 else 0))%Z
  | _ => Raise TypeError
  end.

(** [os.path.splitext(v)[1]] *)
Definition splitext_ext (v : json) : outcome string :=
  match v with
  | JStr s => Ret (snd (PyStr.splitext s))
  | _ => Raise TypeError
  end.

(** [len(v)] *)
Definition len (v : json) : outcome nat :=
  match v with
  | JStr s => Ret (String.length s)
  | JArr l => Ret (List.length l)
  | JObj kvs => Ret (List.length kvs)
  | _ => Raise TypeError
  end.

(** [v.startswith(p)]; only strings have [startswith]. *)
Definition startswith (v : json) (p : string) : outcome bool :=
  match v with
  | JStr s => Ret (PyStr.startswith p s)
  | _ => Raise AttributeError
  end.

(** [v.split(' ')[i]] *)
Definition split_item (v : json) (i : nat) : outcome string :=
  match v with
  | JStr s =>
      match nth_error (PyStr.split " " s) i with
      | Some t => Ret t
      | None => Raise IndexError
      end
  | _ => Raise AttributeError
  end.

(** The text of a value that the code has already used as a string. *)
Definition as_str (v : json) : outcome string :=
  match v with
  | JStr s => Ret s
  | _ => Raise TypeError
  end.

(** Whether a number occurs in a value.  boto3 hands every number of an item
    it reads from DynamoDB back as a [decimal.Decimal]; texts, booleans,
    nulls, lists and dictionaries come back as they were put. *)
Fixpoint has_number (v : json) : bool :=
  match v with
  | JInt _ => true
  | JArr l => existsb has_number l
  | JObj kvs => existsb (fun kv => has_number (snd kv)) kvs
  | _ => false
  end.

End Py.

(** ** [json.dumps] and the API response *)

Module Json.

Definition dquote : string := String (ascii_of_N 34) EmptyString.
Definition backslash : string := String (ascii_of_N 92) EmptyString.

(** Escaping of [json.dumps] with its default [ensure_ascii=True]. *)
Definition escape_char (c : ascii) : string :=
  let n := PyStr.code c in
  if (n =? 34)%N then backslash +:+ dquote
  else if (n =? 92)%N then backslash +:+ backslash
  else if (n =? 10)%N then backslash +:+ "n"
  else if (n =? 13)%N then backslash +:+ "r"
  else if (n =? 9)%N then backslash +:+ "t"
  else if (n =? 8)%N then backslash +:+ "b"
  else if (n =? 12)%N then backslash +:+ "f"
  else if ((32 <=? n) && (n <=? 126))%N then String c EmptyString
  else backslash +:+ "u00" +:+ PyStr.hex_byte n.

Fixpoint escape (s : string) : string :=
  match s with
  | EmptyString => EmptyString
  | String c r => escape_char c +:+ escape r
  end.

Definition quote (s : string) : string := dquote +:+ escape s +:+ dquote.

Fixpoint join (sep : string) (l : list string) : string :=
  match l with
  | [] => EmptyString
  | [x] => x
  | x :: r => x +:+ sep +:+ join sep r
  end.

Fixpoint dumps (j : json) : string :=
  match j with
  | JNull => "null"
  | JBool true => "true"
  | JBool false => "false"
  | JInt z => pretty z
  | JStr s => quote s
  | JArr l => "[" +:+ join ", " (List.map dumps l) +:+ "]"
  | JObj kvs =>
      "{" +:+ join ", " (List.map (fun kv => quote (fst kv) +:+ ": " +:+ dumps (snd kv)) kvs)
          +:+ "}"
  end.

End Json.

Record Response : Type := {
  statusCode : Z;
  headers : list (string * string);
  body : string
}.

Definition create_response (status_code : Z) (b : json) : Response :=
  {| statusCode := status_code;
     headers :=
       [ ("Content-Type", "application/json");
         ("Access-Control-Allow-Origin", "*");
         ("Access-Control-Allow-Headers", "Content-Type,Authorization");
         ("Access-Control-Allow-Methods", "GET,POST,PUT,DELETE,OPTIONS") ];
     body := Json.dumps b |}.

(** ** File validation constants *)

Definition MAX_FILE_SIZE : Z := 100 * 1024 * 1024.

Definition ALLOWED_EXTENSIONS : list (string * list string) :=
  [ ("image", [".jpg"; ".jpeg"; ".png"; ".gif"; ".bmp"; ".webp"]);
    ("document", [".pdf"; ".doc"; ".docx"; ".txt"; ".rtf"; ".odt"]);
    ("video", [".mp4"; ".avi"; ".mov"; ".wmv"; ".flv"; ".webm"]);
    ("audio", [".mp3"; ".wav"; ".flac"; ".aac"; ".ogg"]) ].

(** [x in l] for a list of strings *)
Definition str_in (x : string) (l : list string) : bool :=
  existsb (String.eqb x) l.

(** The list that [validate_file] builds by extending with every value of
    [ALLOWED_EXTENSIONS]. *)
Definition allowed_extensions : list string :=
  fold_left (fun acc kv => (acc ++ snd kv)%list) ALLOWED_EXTENSIONS [].

Definition size_error : string :=
  "File size exceeds maximum limit of " +:+ pretty MAX_FILE_SIZE +:+ " bytes".

Definition type_error (file_extension : string) : string :=
  "File type " +:+ file_extension +:+ " is not allowed".

Definition name_error : string := "Invalid filename".

(** [validate_file(file_info)] *)
Definition validate_file (file_info : json) : outcome (list string) :=
  let errors : list string := [] in
  size ← Py.get file_info "size" (JInt 0);
  too_big ← Py.gt_int size MAX_FILE_SIZE;
  let errors := if too_big : bool then (errors ++ [size_error])%list else errors in
  filename ← Py.get file_info "name" (JStr "");
  ext ← Py.splitext_ext filename;
  let file_extension := PyStr.lower ext in
  let errors :=
    if negb (str_in file_extension allowed_extensions)
    then (errors ++ [type_error file_extension])%list else errors in
  bad_name ← (if negb (Py.truthy filename) then mret true
              else n ← Py.len filename; mret (255 <? n)%nat);
  let errors := if bad_name : bool then (errors ++ [name_error])%list else errors in
  mret errors.

(** ** File identifiers and content types *)

(** The id that [generate_file_id] returns when the clock reads [timestamp]:
    the owner, an underscore and the first eight hexadecimal digits of the
    MD5 digest of owner, name and timestamp. *)
Definition file_id_at (user_id filename timestamp : string) : string :=
  let file_hash := MD5.hexdigest (PyStr.encode (user_id +:+ filename +:+ timestamp)) in
  user_id +:+ "_" +:+ PyStr.take 8 file_hash.

(** The first category of [ALLOWED_EXTENSIONS] that lists the extension
    (the loop with [break]). *)
Definition category_of (file_extension : string) : option string :=
  fst <$> List.find (fun kv => str_in file_extension (snd kv)) ALLOWED_EXTENSIONS.

(** The content type that [create_signed_url] derives from the extension. *)
Definition content_type_of (file_extension : string) : string :=
  match category_of file_extension with
  | Some file_type =>
      if String.eqb file_type "image" then "image/" +:+ PyStr.drop 1 file_extension
      else if String.eqb file_type "document" then
        (if String.eqb file_extension ".pdf" then "application/pdf" else "application/msword")
      else if String.eqb file_type "video" then "video/" +:+ PyStr.drop 1 file_extension
      else if String.eqb file_type "audio" then "audio/" +:+ PyStr.drop 1 file_extension
      else "application/octet-stream"
  | None => "application/octet-stream"
  end.

Definition s3_key_of (user_id file_id filename : string) : string :=
  "uploads/" +:+ user_id +:+ "/" +:+ file_id +:+ "/" +:+ filename.

(** ** The metadata table, the collaborators and the world *)

Inductive Status : Type := uploading | completed.

Definition status_str (s : Status) : string :=
  match s with
  | uploading => "uploading"
  | completed => "completed"
  end.

(** An item of the files table, as [store_file_metadata] writes it. *)
Record Item : Type := {
  file_id : string;
  user_id : string;
  filename : string;
  file_type : string;
  file_size : json;
  content_type : json;
  s3_key : string;
  title : json;
  description : json;
  tags : json;
  upload_date : string;
  last_modified : string;
  version : Z;
  status : Status
}.

(** The item that [store_file_metadata] assembles. *)
Definition new_item (fid uid fname ftype : string) (size ctype ttl descr tgs : json)
    (created modified : string) : Item :=
  {| file_id := fid; user_id := uid; filename := fname; file_type := ftype;
     file_size := size; content_type := ctype; s3_key := s3_key_of uid fid fname;
     title := ttl; description := descr; tags := tgs; upload_date := created;
     last_modified := modified; version := 1; status := uploading |}.

(** The primary key of the table: [Key={'file_id': ..., 'user_id': ...}]. *)
Definition item_key (it : Item) : string * string := (file_id it, user_id it).

Definition set_completed (now : string) (it : Item) : Item :=
  {| file_id := file_id it; user_id := user_id it; filename := filename it;
     file_type := file_type it; file_size := file_size it;
     content_type := content_type it; s3_key := s3_key it; title := title it;
     description := description it; tags := tags it;
     upload_date := upload_date it; last_modified := now;
     version := version it; status := completed |}.

(** A request sent to an external service. *)
Inductive Call : Type :=
| CognitoGetUser (token : string)
| S3GeneratePresignedUrl (operation key : string) (content_type : option string)
| DynamoPutItem (item : Item)
| DynamoGetItem (file_id : json) (user_id : string)
| DynamoUpdateItem (file_id : json) (user_id : string) (last_modified : string).

(** Everything the module reads from outside: the clock, the JSON and JWT
    libraries, and the answers of Cognito, S3 and DynamoDB.  [None] stands
    for a raised exception; [dynamo_error] says which exception, if any,
    DynamoDB raises instead of serving a call.  A JWT is represented by its
    [sub] claim. *)
Record Env : Type := {
  utcnow : nat -> string;
  json_loads : string -> option json;
  jwt_get_unverified_claims : string -> option string;
  cognito_get_user : string -> option (string * list (string * string));
  generate_presigned_url : string -> string -> option string -> option string;
  dynamo_error : Call -> option exn
}.

(** The state outside the process: the files table, the number of clock
    readings so far and the log of calls made to the external services. *)
Record World : Type := {
  files : gmap (string * string) Item;
  ticks : nat;
  calls : list Call
}.

Definition with_files (f : gmap (string * string) Item) (w : World) : World :=
  {| files := f; ticks := ticks w; calls := calls w |}.

Definition log_call (c : Call) (w : World) : World :=
  {| files := files w; ticks := ticks w; calls := calls w ++ [c] |}.

Definition advance (w : World) : World :=
  {| files := files w; ticks := S (ticks w); calls := calls w |}.

(** A computation of the module: it may change the world and either returns
    or raises. *)
Definition M (A : Type) : Type := World -> outcome A * World.

#[global] Instance M_ret : MRet M := fun _ a w => (Ret a, w).
#[global] Instance M_bind : MBind M := fun _ _ f m w =>
  match m w with
  | (Ret a, w') => f a w'
  | (Raise e, w') => (Raise e, w')
  end.

Definition lift {A} (o : outcome A) : M A := fun w => (o, w).

Definition raise {A} (e : exn) : M A := fun w => (Raise e, w).

(** [try: m  except Exception as e: h e] *)
Definition try_except {A} (m : M A) (h : exn -> M A) : M A := fun w =>
  match m w with
  | (Ret a, w') => (Ret a, w')
  | (Raise e, w') => h e w'
  end.

Definition contact (c : Call) : M unit := fun w => (Ret tt, log_call c w).

Record UserInfo : Type := {
  ui_user_id : string;
  ui_username : string;
  ui_attributes : list (string * string)
}.

(** ** The operations of [upload.py] *)

Section Broker.

Context (env : Env).

(** [datetime.now(timezone.utc).isoformat()] *)
Definition now : M string := fun w => (Ret (utcnow env (ticks w)), advance w).

(** [cognito_idp.get_user(AccessToken=token)] *)
Definition get_user (token : string) : M (string * list (string * string)) :=
  _ ← contact (CognitoGetUser token);
  match cognito_get_user env token with
  | Some r => mret r
  | None => raise (OtherError "cognito")
  end.

(** [s3_client.generate_presigned_url(...)] *)
Definition presigned_url (operation key : string) (ctype : option string) : M string :=
  _ ← contact (S3GeneratePresignedUrl operation key ctype);
  match generate_presigned_url env operation key ctype with
  | Some url => mret url
  | None => raise (OtherError "s3")
  end.

(** A call to the files table: it is logged, and DynamoDB either raises, in
    which case the table is left as it was, or serves it on the table. *)
Definition dynamo {A} (c : Call) (serve : M A) : M A :=
  _ ← contact c;
  match dynamo_error env c with
  | Some e => raise e
  | None => serve
  end.

(** [table.put_item(Item=item)]: no condition, so an item stored under the
    same key is replaced. *)
Definition put_item (item : Item) : M unit :=
  dynamo (DynamoPutItem item)
    (fun w => (Ret tt, with_files (<[item_key item := item]> (files w)) w)).

(** [table.get_item(Key={'file_id': file_id, 'user_id': user_id})]; the
    result is the ['Item'] entry of the response, if there is one.  The
    key attributes of the table are strings, so a key of another type is
    refused.  The item is given as it was put; that boto3 hands its numbers
    back as [decimal.Decimal] is accounted for where the code uses them
    ([Py.has_number] in [handle_get_download_url]). *)
Definition get_item (fid : json) (uid : string) : M (option Item) :=
  dynamo (DynamoGetItem fid uid)
    (match fid with
     | JStr f => fun w => (Ret (files w !! (f, uid)), w)
     | _ => raise (ClientError "ValidationException")
     end).

(** [table.update_item] of [handle_complete_upload]: sets the status and
    the modification time under the condition
    [attribute_exists(file_id) AND user_id = :user_id]. *)
Definition update_item (fid : json) (uid : string) (last_mod : string) : M unit :=
  dynamo (DynamoUpdateItem fid uid last_mod)
    (match fid with
     | JStr f => fun w =>
         match files w !! (f, uid) with
         | Some it =>
             if String.eqb (user_id it) uid
             then (Ret tt, with_files (<[(f, uid) := set_completed last_mod it]> (files w)) w)
             else (Raise (ClientError "ConditionalCheckFailedException"), w)
         | None => (Raise (ClientError "ConditionalCheckFailedException"), w)
         end
     | _ => raise (ClientError "ValidationException")
     end).

Definition verify_token (token : string) : M (option UserInfo) :=
  try_except
    (sub ← match jwt_get_unverified_claims env token with
           | Some sub => mret sub
           | None => raise (OtherError "jwt")
           end;
     response ← get_user token;
     mret (Some {| ui_user_id := sub; ui_username := fst response;
                   ui_attributes := snd response |}))
    (fun _ => mret None).

Definition generate_file_id (uid fname : string) : M string :=
  timestamp ← now;
  mret (file_id_at uid fname timestamp).

Definition create_signed_url (fid fname uid operation : string) : M (option string) :=
  try_except
    (let file_extension := PyStr.lower (snd (PyStr.splitext fname)) in
     let ctype := content_type_of file_extension in
     url ← (if String.eqb operation "put_object"
            then presigned_url "put_object" (s3_key_of uid fid fname) (Some ctype)
            else presigned_url "get_object" (s3_key_of uid fid fname) None);
     mret (Some url))
    (fun _ => mret None).

Definition store_file_metadata (fid uid fname : string) (file_info metadata : json) : M bool :=
  try_except
    (let file_extension := PyStr.lower (snd (PyStr.splitext fname)) in
     let ftype := default "other" (category_of file_extension) in
     size ← lift (Py.get file_info "size" (JInt 0));
     ctype ← lift (Py.get file_info "type" (JStr "application/octet-stream"));
     ttl ← lift (Py.get metadata "title" (JStr fname));
     descr ← lift (Py.get metadata "description" (JStr ""));
     tgs ← lift (Py.get metadata "tags" (JArr []));
     created ← now;
     modified ← now;
     _ ← put_item (new_item fid uid fname ftype size ctype ttl descr tgs created modified);
     mret true)
    (fun _ => mret false).

(** [not url] for the result of [create_signed_url] *)
Definition no_url (url : option string) : bool :=
  match url with
  | Some u => String.eqb u ""
  | None => true
  end.

Definition handle_get_upload_url (body : json) (uid : string) : M Response :=
  file_info ← lift (Py.get body "file_info" (JObj []));
  metadata ← lift (Py.get body "metadata" (JObj []));
  validation_errors ← lift (validate_file file_info);
  match validation_errors with
  | _ :: _ =>
      mret (create_response 400
              (JObj [("error", JStr "File validation failed");
                     ("details", JArr (List.map JStr validation_errors))]))
  | [] =>
      name ← lift (Py.get file_info "name" (JStr ""));
      fname ← lift (Py.as_str name);
      fid ← generate_file_id uid fname;
      upload_url ← create_signed_url fid fname uid "put_object";
      if no_url upload_url
      then mret (create_response 500 (JObj [("error", JStr "Failed to generate upload URL")]))
      else
        stored ← store_file_metadata fid uid fname file_info metadata;
        if negb stored
        then mret (create_response 500 (JObj [("error", JStr "Failed to store file metadata")]))
        else mret (create_response 200
                     (JObj [("upload_url", JStr (default "" upload_url));
                            ("file_id", JStr fid);
                            ("expires_in", JInt 3600)]))
  end.

Definition handle_complete_upload (body : json) (uid : string) : M Response :=
  fid ← lift (Py.get body "file_id" JNull);
  if negb (Py.truthy fid)
  then mret (create_response 400 (JObj [("error", JStr "Missing file_id")]))
  else
    try_except
      (modified ← now;
       _ ← update_item fid uid modified;
       mret (create_response 200 (JObj [("message", JStr "Upload completed successfully")])))
      (fun e =>
         match e with
         | ClientError code =>
             if String.eqb code "ConditionalCheckFailedException"
             then mret (create_response 404
                          (JObj [("error", JStr "File not found or access denied")]))
             else mret (create_response 500 (JObj [("error", JStr "Database error")]))
         | _ => raise e
         end).

(** The values that [create_response] dumps in the 200 answer are those of
    the item as boto3 read it: [json.dumps] raises [TypeError] on a
    [decimal.Decimal], that is when a number occurs in one of them, and the
    enclosing [except Exception] turns that into the 500 answer. *)
Definition handle_get_download_url (body : json) (uid : string) : M Response :=
  fid ← lift (Py.get body "file_id" JNull);
  if negb (Py.truthy fid)
  then mret (create_response 400 (JObj [("error", JStr "Missing file_id")]))
  else
    try_except
      (response ← get_item fid uid;
       match response with
       | None => mret (create_response 404 (JObj [("error", JStr "File not found")]))
       | Some file_item =>
           f ← lift (Py.as_str fid);
           download_url ← create_signed_url f (filename file_item) uid "get_object";
           if no_url download_url
           then mret (create_response 500
                        (JObj [("error", JStr "Failed to generate download URL")]))
           else if existsb Py.has_number
                     [file_size file_item; title file_item; description file_item;
                      tags file_item]
           then raise TypeError
           else mret (create_response 200
                        (JObj [("download_url", JStr (default "" download_url));
                               ("file_info",
                                JObj [("filename", JStr (filename file_item));
                                      ("file_type", JStr (file_type file_item));
                                      ("file_size", file_size file_item);
                                      ("title", title file_item);
                                      ("description", description file_item);
                                      ("tags", tags file_item)]);
                               ("expires_in", JInt 3600)]))
       end)
      (fun _ => mret (create_response 500 (JObj [("error", JStr "Internal server error")]))).

(** [json.loads(raw)] inside its own [try], which catches only
    [json.JSONDecodeError]: [None] is the 400 answer. *)
Definition parse_body (raw : json) : M (option json) :=
  match raw with
  | JStr s =>
      match json_loads env s with
      | Some b => mret (Some b)
      | None => mret None
      end
  | _ => raise TypeError
  end.

(** The dispatch on [body.get('operation', 'get_upload_url')] *)
Definition dispatch (body : json) (uid : string) : M Response :=
  operation ← lift (Py.get body "operation" (JStr "get_upload_url"));
  if Py.eq_str operation "get_upload_url" then handle_get_upload_url body uid
  else if Py.eq_str operation "complete_upload" then handle_complete_upload body uid
  else if Py.eq_str operation "get_download_url" then handle_get_download_url body uid
  else mret (create_response 400 (JObj [("error", JStr "Invalid operation")])).

Definition handler (event : json) : M Response :=
  try_except
    (method ← lift (Py.get event "httpMethod" JNull);
     if Py.eq_str method "OPTIONS"
     then mret (create_response 200 (JObj [("message", JStr "OK")]))
     else
       hdrs ← lift (Py.get event "headers" (JObj []));
       auth_header ← lift (Py.get hdrs "Authorization" (JStr ""));
       bearer ← lift (Py.startswith auth_header "Bearer ");
       if negb bearer
       then mret (create_response 401
                    (JObj [("error", JStr "Missing or invalid authorization header")]))
       else
         token ← lift (Py.split_item auth_header 1);
         user_info ← verify_token token;
         match user_info with
         | None =>
             mret (create_response 401 (JObj [("error", JStr "Invalid or expired token")]))
         | Some ui =>
             raw ← lift (Py.get event "body" (JStr "{}"));
             parsed ← parse_body raw;
             match parsed with
             | None =>
                 mret (create_response 400
                         (JObj [("error", JStr "Invalid JSON in request body")]))
             | Some body => dispatch body (ui_user_id ui)
             end
         end)
    (fun _ => mret (create_response 500 (JObj [("error", JStr "Internal server error")]))).

End Broker.

(** ** A concrete deployment, used to run the model *)

Module Demo.

Definition t1 : string := "2024-05-01T12:00:00.035369+00:00".
Definition t2 : string := "2024-05-01T12:00:00.084287+00:00".

(** Successive readings of the clock, strictly increasing. *)
Definition clock (k : nat) : string :=
  nth k [ t1;
          "2024-05-01T12:00:00.035421+00:00";
          "2024-05-01T12:00:00.035428+00:00";
          "2024-05-01T12:00:00.061007+00:00";
          t2;
          "2024-05-01T12:00:00.084339+00:00";
          "2024-05-01T12:00:00.084345+00:00" ]
        "2024-05-01T12:00:01+00:00".

Definition upload_body : json :=
  JObj [("operation", JStr "get_upload_url");
        ("file_info", JObj [("name", JStr "photo.jpg"); ("size", JInt 1024);
                            ("type", JStr "image/jpeg")]);
        ("metadata", JObj [("title", JStr "Holiday"); ("description", JStr "Beach");
                           ("tags", JArr [JStr "family"])])].

(** The same upload without the [operation] entry. *)
Definition upload_body_no_op : json :=
  JObj [("file_info", JObj [("name", JStr "photo.jpg"); ("size", JInt 1024);
                            ("type", JStr "image/jpeg")]);
        ("metadata", JObj [("title", JStr "Second"); ("description", JStr "");
                           ("tags", JArr [])])].

Definition virus_body : json :=
  JObj [("operation", JStr "get_upload_url");
        ("file_info", JObj [("name", JStr "virus.exe"); ("size", JInt 10);
                            ("type", JStr "application/octet-stream")])].

Definition fid : string := "u1_982480fb".

Definition complete_body : json :=
  JObj [("operation", JStr "complete_upload"); ("file_id", JStr fid)].

Definition download_body : json :=
  JObj [("operation", JStr "get_download_url"); ("file_id", JStr fid)].

(** [json.loads] on the texts of the bodies above; anything else is not
    JSON for this deployment. *)
Definition loads (s : string) : option json :=
  List.find (fun v => String.eqb (Json.dumps v) s)
    [upload_body; upload_body_no_op; virus_body; complete_body; download_body; JObj []].

Definition claims (token : string) : option string :=
  if String.eqb token "tok-u1" then Some "u1"
  else if String.eqb token "tok-u2" then Some "u2"
  else None.

Definition cognito (token : string) : option (string * list (string * string)) :=
  if String.eqb token "tok-u1" then Some ("alice", [("email", "alice@example.com")])
  else if String.eqb token "tok-u2" then Some ("bob", [("email", "bob@example.com")])
  else None.

Definition presign (operation key : string) (ctype : option string) : option string :=
  Some ("https://media.s3.amazonaws.com/" +:+ key +:+ "?X-Amz-Expires=3600&op=" +:+ operation).

Definition env : Env :=
  {| utcnow := clock; json_loads := loads; jwt_get_unverified_claims := claims;
     cognito_get_user := cognito; generate_presigned_url := presign;
     dynamo_error := fun _ => None |}.

(** The same deployment with S3 unreachable. *)
Definition env_s3_down : Env :=
  {| utcnow := clock; json_loads := loads; jwt_get_unverified_claims := claims;
     cognito_get_user := cognito; generate_presigned_url := fun _ _ _ => None;
     dynamo_error := fun _ => None |}.

(** The same deployment with DynamoDB refusing every call. *)
Definition env_db_down : Env :=
  {| utcnow := clock; json_loads := loads; jwt_get_unverified_claims := claims;
     cognito_get_user := cognito; generate_presigned_url := presign;
     dynamo_error := fun _ => Some (ClientError "ProvisionedThroughputExceededException") |}.

Definition request (token : string) (b : json) : json :=
  JObj [("httpMethod", JStr "POST");
        ("headers", JObj [("Authorization", JStr ("Bearer " +:+ token))]);
        ("body", JStr (Json.dumps b))].

Definition empty_world : World := {| files := ∅; ticks := 0; calls := [] |}.

(** The record that the first upload request of [u1] creates. *)
Definition uploaded_record : Item :=
  new_item fid "u1" "photo.jpg" "image" (JInt 1024) (JStr "image/jpeg") (JStr "Holiday")
    (JStr "Beach") (JArr [JStr "family"]) "2024-05-01T12:00:00.035421+00:00"
    "2024-05-01T12:00:00.035428+00:00".

(** The same record once confirmed. *)
Definition completed_record : Item :=
  set_completed "2024-05-01T12:00:00.061007+00:00" uploaded_record.

(** The record that replaces it when the file id comes out again. *)
Definition second_record : Item :=
  new_item fid "u1" "photo.jpg" "image" (JInt 1024) (JStr "image/jpeg") (JStr "Second")
    (JStr "") (JArr []) "2024-05-01T12:00:00.084339+00:00"
    "2024-05-01T12:00:00.084345+00:00".

(** The world after [u1] has requested an upload of photo.jpg... *)
Definition w_uploaded : World := snd (handler env (request "tok-u1" upload_body) empty_world).
(** ... confirmed it ... *)
Definition w_completed : World := snd (handler env (request "tok-u1" complete_body) w_uploaded).
(** ... and requested another upload of the same name a moment later. *)
Definition w_again : World := snd (handler env (request "tok-u1" upload_body_no_op) w_completed).

End Demo.

(** * Vocabulary of the properties *)

(** ** File validation *)

(** The extension that the type rule looks at: compared in lower case. *)
Definition extension (name : string) : string :=
  PyStr.lower (snd (PyStr.splitext name)).

Definition name_invalid (name : string) : bool :=
  String.eqb name "" || (255 <? String.length name)%nat.

(** ** File identifiers *)

(** The truncated digest that distinguishes the ids of one owner and name. *)
Definition fingerprint (uid fname timestamp : string) : string :=
  PyStr.take 8 (MD5.hexdigest (PyStr.encode (uid +:+ fname +:+ timestamp))).

(** ** Calls and items *)

(** The S3 operation, content type and call that [create_signed_url] settles on. *)
Definition s3_operation (operation : string) : string :=
  if String.eqb operation "put_object" then "put_object" else "get_object".

Definition s3_content_type (operation fname : string) : option string :=
  if String.eqb operation "put_object" then Some (content_type_of (extension fname)) else None.

Definition s3_call (fid fname uid operation : string) : Call :=
  S3GeneratePresignedUrl (s3_operation operation) (s3_key_of uid fid fname)
    (s3_content_type operation fname).

(** The item that [store_file_metadata] builds from two dictionaries in world [w]. *)
Definition built_item (env : Env) (fid uid fname : string) (fkvs mkvs : list (string * json))
    (w : World) : Item :=
  new_item fid uid fname (default "other" (category_of (extension fname)))
    (default (JInt 0) (Py.dict_get fkvs "size"))
    (default (JStr "application/octet-stream") (Py.dict_get fkvs "type"))
    (default (JStr fname) (Py.dict_get mkvs "title"))
    (default (JStr "") (Py.dict_get mkvs "description"))
    (default (JArr []) (Py.dict_get mkvs "tags"))
    (utcnow env (ticks w)) (utcnow env (S (ticks w))).

(** ** The responses of the handlers, by name *)

Definition options_ok : Response := create_response 200 (JObj [("message", JStr "OK")]).

Definition missing_header : Response :=
  create_response 401 (JObj [("error", JStr "Missing or invalid authorization header")]).

Definition invalid_token : Response :=
  create_response 401 (JObj [("error", JStr "Invalid or expired token")]).

Definition invalid_json : Response :=
  create_response 400 (JObj [("error", JStr "Invalid JSON in request body")]).

Definition invalid_operation : Response :=
  create_response 400 (JObj [("error", JStr "Invalid operation")]).

Definition internal_error : Response :=
  create_response 500 (JObj [("error", JStr "Internal server error")]).

Definition validation_failed (errors : list string) : Response :=
  create_response 400
    (JObj [("error", JStr "File validation failed"); ("details", JArr (List.map JStr errors))]).

Definition url_failed : Response :=
  create_response 500 (JObj [("error", JStr "Failed to generate upload URL")]).

Definition store_failed : Response :=
  create_response 500 (JObj [("error", JStr "Failed to store file metadata")]).

Definition upload_ok (url fid : string) : Response :=
  create_response 200
    (JObj [("upload_url", JStr url); ("file_id", JStr fid); ("expires_in", JInt 3600)]).

Definition completed_ok : Response :=
  create_response 200 (JObj [("message", JStr "Upload completed successfully")]).

Definition not_found_or_denied : Response :=
  create_response 404 (JObj [("error", JStr "File not found or access denied")]).

Definition database_error : Response :=
  create_response 500 (JObj [("error", JStr "Database error")]).

Definition not_found : Response := create_response 404 (JObj [("error", JStr "File not found")]).

Definition download_failed : Response :=
  create_response 500 (JObj [("error", JStr "Failed to generate download URL")]).

Definition download_ok (url : string) (it : Item) : Response :=
  create_response 200
    (JObj [("download_url", JStr url);
           ("file_info",
            JObj [("filename", JStr (filename it)); ("file_type", JStr (file_type it));
                  ("file_size", file_size it); ("title", title it);
                  ("description", description it); ("tags", tags it)]);
           ("expires_in", JInt 3600)]).

(** The status code of the response a run ends with, if it does not raise. *)
Definition status_of (r : outcome Response * World) : option Z :=
  match fst r with
  | Ret resp => Some (statusCode resp)
  | Raise _ => None
  end.

(** ** Worlds *)

(** What one operation may do to the files table, with the call that did it. *)
Inductive effect (w w' : World) : Prop :=
| effect_none :
    files w' = files w -> effect w w'
| effect_put (it : Item) (mid : list Call) :
    status it = uploading ->
    files w' = <[item_key it := it]> (files w) ->
    calls w' = (calls w ++ mid ++ [DynamoPutItem it])%list ->
    effect w w'
| effect_update (f u ts : string) (it : Item) (mid : list Call) :
    files w !! (f, u) = Some it ->
    files w' = <[(f, u) := set_completed ts it]> (files w) ->
    calls w' = (calls w ++ mid ++ [DynamoUpdateItem (JStr f) u ts])%list ->
    effect w w'.

(** Every item sits under its own key. *)
Definition table_wf (t : gmap (string * string) Item) : Prop :=
  forall k it, t !! k = Some it -> item_key it = k.

(** The worlds that requests to [handler] lead to from an empty table, under
    any behaviour of the collaborators. *)
Inductive reachable : World -> Prop :=
| reachable_empty (n : nat) (cs : list Call) :
    reachable {| files := ∅; ticks := n; calls := cs |}
| reachable_handler (env : Env) (event : json) (w : World) :
    reachable w -> reachable (snd (handler env event w)).

(** * Tactics *)

(** Unfolds the monadic plumbing. *)
Ltac munfold :=
  unfold mbind, M_bind, mret, M_ret, lift, raise, try_except, contact, now, dynamo in *.

(** Unfolds the plumbing and simplifies until nothing moves. *)
Ltac msimpl := repeat (progress (munfold; simpl)).

(** Runs the next lifted step of a computation once its outcome [H] is
    known. *)
Ltac mstep H :=
  try rewrite H;
  repeat match goal with
         | |- context [(lift (Ret ?a) ≫= ?f) ?w] =>
             change ((lift (Ret a) ≫= f) w) with (f a w)
         | |- context [(lift (@Raise ?A ?e) ≫= ?f) ?w] =>
             change ((lift (@Raise A e) ≫= f) w) with (raise (A := _) e w)
         end;
  cbn beta.

(** * Further vocabulary *)

(** ** Answers *)

(** The headers that every response carries. *)
Definition cors_headers : list (string * string) :=
  [ ("Content-Type", "application/json");
    ("Access-Control-Allow-Origin", "*");
    ("Access-Control-Allow-Headers", "Content-Type,Authorization");
    ("Access-Control-Allow-Methods", "GET,POST,PUT,DELETE,OPTIONS") ].

(** A response made by [create_response] with one of the status codes in use. *)
Definition api_response (resp : Response) : Prop :=
  In (statusCode resp) [200; 400; 401; 404; 500]%Z /\ headers resp = cors_headers.

(** Closes [api_response] goals on responses built by [create_response]. *)
Ltac api := split; [simpl; tauto | reflexivity].

(** ** Principals and records *)

(** The declared size passed the size rule. *)
Definition size_ok (v : json) : Prop :=
  match v with
  | JInt z => (z <= MAX_FILE_SIZE)%Z
  | JBool _ => True
  | _ => False
  end.

(** A record as request-upload creates it for the principal [uid]: made from
    a name and a size that passed [validate_file]. *)
Record fresh_record (uid : string) (it : Item) : Prop := {
  fresh_owner : user_id it = uid;
  fresh_id : exists timestamp, file_id it = file_id_at uid (filename it) timestamp;
  fresh_key : s3_key it = s3_key_of uid (file_id it) (filename it);
  fresh_version : version it = 1%Z;
  fresh_extension : In (extension (filename it)) allowed_extensions;
  fresh_type : category_of (extension (filename it)) = Some (file_type it);
  fresh_name : filename it <> "" /\ String.length (filename it) <= 255;
  fresh_size : size_ok (file_size it)
}.

(** What a request handled for the principal [uid] may do to the table. *)
Inductive owner_step (uid : string) (t t' : gmap (string * string) Item) : Prop :=
| owner_step_none :
    t' = t -> owner_step uid t t'
| owner_step_create (it : Item) :
    fresh_record uid it -> status it = uploading ->
    t' = <[(file_id it, uid) := it]> t -> owner_step uid t t'
| owner_step_complete (f ts : string) (it : Item) :
    t !! (f, uid) = Some it ->
    t' = <[(f, uid) := set_completed ts it]> t -> owner_step uid t t'.

(** The token that [handler] takes from the [Authorization] header. *)
Definition bearer_token (event : json) : option string :=
  match Py.get event "headers" (JObj []) with
  | Ret hdrs =>
      match Py.get hdrs "Authorization" (JStr "") with
      | Ret (JStr a) =>
          if PyStr.startswith "Bearer " a then nth_error (PyStr.split " " a) 1 else None
      | _ => None
      end
  | Raise _ => None
  end.

(** The principal that [verify_token] makes of it: the [sub] claim of a
    token that decodes and that Cognito accepts. *)
Definition principal (env : Env) (event : json) : option string :=
  match bearer_token event with
  | Some token =>
      match jwt_get_unverified_claims env token, cognito_get_user env token with
      | Some sub, Some _ => Some sub
      | _, _ => None
      end
  | None => None
  end.

(** ** Edge cases of the three operations *)

(** ** More requests for the concrete deployment *)

Module Lab.

(** A request for an upload URL whose size is a text. *)
Definition size_text_body : json :=
  JObj [("file_info", JObj [("name", JStr "a.jpg"); ("size", JStr "12")])].

(** A request for an upload URL whose metadata is a text. *)
Definition text_metadata_body : json :=
  JObj [("file_info", JObj [("name", JStr "a.jpg"); ("size", JInt 12)]);
        ("metadata", JStr "holiday")].

Definition unknown_operation_body : json :=
  JObj [("operation", JStr "delete_file"); ("file_id", JStr Demo.fid)].

Definition loads (s : string) : option json :=
  match List.find (fun v => String.eqb (Json.dumps v) s)
          [size_text_body; text_metadata_body; unknown_operation_body] with
  | Some v => Some v
  | None => Demo.loads s
  end.

Definition env : Env :=
  {| utcnow := Demo.clock; json_loads := loads; jwt_get_unverified_claims := Demo.claims;
     cognito_get_user := Demo.cognito; generate_presigned_url := Demo.presign;
     dynamo_error := fun _ => None |}.

End Lab.

Definition missing_file_id : Response :=
  create_response 400 (JObj [("error", JStr "Missing file_id")]).

(** ** Extensions and accepted names *)

(** The four categories of [ALLOWED_EXTENSIONS]. *)
Definition categories : list string := List.map fst ALLOWED_EXTENSIONS.

(** ** Tokens, downloads and undispatchable requests *)

(** Does the character occur in the string? *)
Fixpoint contains (c : ascii) (s : string) : bool :=
  match s with
  | EmptyString => false
  | String d r => Ascii.eqb d c || contains c r
  end.

(** ** Upload, download and the collaborators *)

(** The calls one operation makes to S3 and DynamoDB, in order. *)
Inductive operation_calls : list Call -> Prop :=
| calls_none : operation_calls []
| calls_put_url (key ct : string) :
    operation_calls [S3GeneratePresignedUrl "put_object" key (Some ct)]
| calls_put_url_item (key ct : string) (it : Item) :
    operation_calls [S3GeneratePresignedUrl "put_object" key (Some ct); DynamoPutItem it]
| calls_update (f : json) (u ts : string) :
    operation_calls [DynamoUpdateItem f u ts]
| calls_get (f : json) (u : string) :
    operation_calls [DynamoGetItem f u]
| calls_get_url (f : json) (u key : string) :
    operation_calls [DynamoGetItem f u; S3GeneratePresignedUrl "get_object" key None].

(** What a run adds to the log and to the clock. *)
Definition adds (w w' : World) (new : list Call) : Prop :=
  calls w' = (calls w ++ new)%list /\ ticks w <= ticks w' <= ticks w + 3.

(** A number occurs in one of the values of a record that the answer to a
    request-download reports. *)
Definition holds_number (it : Item) : bool :=
  existsb Py.has_number [file_size it; title it; description it; tags it].

(** * The model at work *)

Example md5_empty : MD5.hexdigest (PyStr.encode "") = "d41d8cd98f00b204e9800998ecf8427e".
Proof. vm_compute. reflexivity. Qed.

Example md5_abc : MD5.hexdigest (PyStr.encode "abc") = "900150983cd24fb0d6963f7d28e17f72".
Proof. vm_compute. reflexivity. Qed.

Example md5_two_blocks :
  MD5.hexdigest (PyStr.encode
    "12345678901234567890123456789012345678901234567890123456789012345678901234567890")
  = "57edf4a22be3c955ac49da2e2107b67a".
Proof. vm_compute. reflexivity. Qed.

Example dumps_sample :
  Json.dumps (JObj [("upload_url", JStr "https://s3/x?a=1"); ("file_id", JStr "u1_0a");
                    ("expires_in", JInt 3600); ("tags", JArr [JStr "a"; JNull])])
  = "{" +:+ Json.quote "upload_url" +:+ ": " +:+ Json.quote "https://s3/x?a=1" +:+ ", "
        +:+ Json.quote "file_id" +:+ ": " +:+ Json.quote "u1_0a" +:+ ", "
        +:+ Json.quote "expires_in" +:+ ": 3600, "
        +:+ Json.quote "tags" +:+ ": [" +:+ Json.quote "a" +:+ ", null]}".
Proof. vm_compute. reflexivity. Qed.

Example size_error_text :
  size_error = "File size exceeds maximum limit of 104857600 bytes".
Proof. vm_compute. reflexivity. Qed.

Example validate_test_jpg :
  validate_file (JObj [("name", JStr "test.jpg"); ("size", JInt 1024); ("type", JStr "image/jpeg")])
  = Ret [].
Proof. vm_compute. reflexivity. Qed.

Example validate_virus_exe :
  validate_file (JObj [("name", JStr "virus.exe"); ("size", JInt 10)])
  = Ret ["File type .exe is not allowed"].
Proof. vm_compute. reflexivity. Qed.

Example validate_all_three :
  validate_file (JObj [("name", JStr ""); ("size", JInt 209715200)])
  = Ret ["File size exceeds maximum limit of 104857600 bytes";
         "File type  is not allowed"; "Invalid filename"].
Proof. vm_compute. reflexivity. Qed.

Example validate_hidden_jpg :
  validate_file (JObj [("name", JStr ".jpg"); ("size", JInt 1)])
  = Ret ["File type  is not allowed"].
Proof. vm_compute. reflexivity. Qed.

Example validate_upper_ext :
  validate_file (JObj [("name", JStr "a/b.c/Photo.JPG"); ("size", JInt 104857600)]) = Ret [].
Proof. vm_compute. reflexivity. Qed.

Example validate_size_string :
  validate_file (JObj [("name", JStr "a.jpg"); ("size", JStr "12")]) = Raise TypeError.
Proof. vm_compute. reflexivity. Qed.

Example e2e_upload_status :
  status_of (handler Demo.env (Demo.request "tok-u1" Demo.upload_body) Demo.empty_world)
  = Some 200%Z.
Proof. vm_compute. reflexivity. Qed.

(** The record holds the size 1024, which comes back from the table as a
    [Decimal]. *)
Example e2e_download_by_owner :
  handler Demo.env (Demo.request "tok-u1" Demo.download_body) Demo.w_completed
  = (Ret internal_error,
     log_call (S3GeneratePresignedUrl "get_object" "uploads/u1/u1_982480fb/photo.jpg" None)
       (log_call (DynamoGetItem (JStr Demo.fid) "u1")
          (log_call (CognitoGetUser "tok-u1") Demo.w_completed))).
Proof. vm_compute. reflexivity. Qed.

(** A record without a number in it, here with the declared size [true],
    is reported. *)
Example e2e_download_boolean_size :
  let w1 := snd (handle_get_upload_url Demo.env
                   (JObj [("file_info", JObj [("name", JStr "photo.jpg");
                                              ("size", JBool true)])])
                   "u1" Demo.empty_world) in
  status_of (handle_get_download_url Demo.env Demo.download_body "u1" w1) = Some 200%Z /\
  exists it, files w1 !! (Demo.fid, "u1") = Some it /\
    fst (handle_get_download_url Demo.env Demo.download_body "u1" w1)
    = Ret (download_ok
             "https://media.s3.amazonaws.com/uploads/u1/u1_982480fb/photo.jpg?X-Amz-Expires=3600&op=get_object"
             it).
Proof.
  cbv zeta. split; [vm_compute; reflexivity |].
  eexists. split; vm_compute; reflexivity.
Qed.

Example e2e_download_by_other_owner :
  fst (handler Demo.env (Demo.request "tok-u2" Demo.download_body) Demo.w_completed)
  = Ret not_found.
Proof. vm_compute. reflexivity. Qed.

Example e2e_confirm_by_other_owner :
  fst (handler Demo.env (Demo.request "tok-u2" Demo.complete_body) Demo.w_uploaded)
  = Ret not_found_or_denied /\
  files (snd (handler Demo.env (Demo.request "tok-u2" Demo.complete_body) Demo.w_uploaded))
  = files Demo.w_uploaded.
Proof. split; vm_compute; reflexivity. Qed.

Example e2e_confirm_twice :
  fst (handler Demo.env (Demo.request "tok-u1" Demo.complete_body) Demo.w_completed)
  = Ret completed_ok.
Proof. vm_compute. reflexivity. Qed.

Example e2e_virus_exe :
  fst (handler Demo.env (Demo.request "tok-u1" Demo.virus_body) Demo.empty_world)
  = Ret (validation_failed ["File type .exe is not allowed"]) /\
  files (snd (handler Demo.env (Demo.request "tok-u1" Demo.virus_body) Demo.empty_world)) = ∅.
Proof. split; vm_compute; reflexivity. Qed.

Example e2e_bad_json :
  fst (handler Demo.env
         (JObj [("httpMethod", JStr "POST");
                ("headers", JObj [("Authorization", JStr "Bearer tok-u1")]);
                ("body", JStr "invalid json")]) Demo.empty_world)
  = Ret invalid_json.
Proof. vm_compute. reflexivity. Qed.

Example e2e_null_body :
  fst (handler Demo.env
         (JObj [("httpMethod", JStr "POST");
                ("headers", JObj [("Authorization", JStr "Bearer tok-u1")]);
                ("body", JNull)]) Demo.empty_world)
  = Ret internal_error.
Proof. vm_compute. reflexivity. Qed.

(** * Properties *)

(** ** File validation *)

Lemma str_in_In (x : string) (l : list string) : str_in x l = true <-> In x l.
Proof.
  unfold str_in. rewrite existsb_exists. split.
  - intros [y [Hy E]]. apply String.eqb_eq in E. now subst.
  - intros H. exists x. split; [assumption | apply String.eqb_refl].
Qed.

Lemma name_error_not_size_error : name_error <> size_error.
Proof. intros H. vm_compute in H. discriminate. Qed.

Lemma name_error_not_type_error (e : string) : name_error <> type_error e.
Proof.
  intros H. apply (f_equal (PyStr.take 1)) in H. vm_compute in H. discriminate.
Qed.

(** On a dictionary with an integer size and a string name, [validate_file]
    returns the concatenation of what each of its three rules contributes. *)
Lemma validate_file_rules (kvs : list (string * json)) (size : Z) (name : string) :
  Py.get (JObj kvs) "size" (JInt 0) = Ret (JInt size) ->
  Py.get (JObj kvs) "name" (JStr "") = Ret (JStr name) ->
  validate_file (JObj kvs) =
  Ret ((if (MAX_FILE_SIZE <? size)%Z then [size_error] else [])
       ++ (if str_in (extension name) allowed_extensions then []
           else [type_error (extension name)])
       ++ (if name_invalid name then [name_error] else []))%list.
Proof.
  intros Hsize Hname. unfold validate_file. rewrite Hsize, Hname.
  unfold mbind, outcome_bind, mret, outcome_ret, Py.gt_int, Py.splitext_ext,
    Py.truthy, Py.len, name_invalid.
  fold (extension name).
  destruct (MAX_FILE_SIZE <? size)%Z, (str_in (extension name) allowed_extensions),
    (String.eqb name ""); simpl;
    try destruct (255 <? String.length name)%nat; reflexivity.
Qed.

(** C6.  A declared size above [MAX_FILE_SIZE] (100 MiB) always puts the
    size violation in the result of [validate_file]; a declared size of at
    most [MAX_FILE_SIZE] together with an extension of the allow-list gives
    a result with neither the size violation nor any type violation. *)
Theorem validate_file_size_rule (kvs : list (string * json)) (size : Z) (name : string) :
  Py.get (JObj kvs) "size" (JInt 0) = Ret (JInt size) ->
  Py.get (JObj kvs) "name" (JStr "") = Ret (JStr name) ->
  exists errors,
    validate_file (JObj kvs) = Ret errors /\
    ((MAX_FILE_SIZE < size)%Z -> In size_error errors) /\
    ((size <= MAX_FILE_SIZE)%Z ->
     In (extension name) allowed_extensions ->
     ~ In size_error errors /\ forall e, ~ In (type_error e) errors).
Proof.
  intros Hsize Hname. eexists. split; [apply validate_file_rules; eassumption |].
  split.
  - intros Hbig. apply Z.ltb_lt in Hbig. rewrite Hbig. simpl. now left.
  - intros Hsmall Hext. apply Z.ltb_ge in Hsmall. apply str_in_In in Hext.
    rewrite Hsmall, Hext. simpl.
    destruct (name_invalid name); simpl; split.
    + intros [H | []]. now apply name_error_not_size_error.
    + intros e [H | []]. now apply (name_error_not_type_error e).
    + tauto.
    + intros e. tauto.
Qed.

Lemma validate_file_size_rule_witness :
  (exists errors,
      validate_file (JObj [("name", JStr "movie.MP4"); ("size", JInt 104857601)]) = Ret errors /\
      In size_error errors) /\
  (exists errors,
      validate_file (JObj [("name", JStr "movie.MP4"); ("size", JInt 104857600)]) = Ret errors /\
      ~ In size_error errors /\ forall e, ~ In (type_error e) errors).
Proof.
  split.
  - destruct (validate_file_size_rule
                [("name", JStr "movie.MP4"); ("size", JInt 104857601)] 104857601 "movie.MP4")
      as (errors & E & Hbig & _); [reflexivity | reflexivity |].
    exists errors. split; [exact E | apply Hbig; reflexivity].
  - destruct (validate_file_size_rule
                [("name", JStr "movie.MP4"); ("size", JInt 104857600)] 104857600 "movie.MP4")
      as (errors & E & _ & Hok); [reflexivity | reflexivity |].
    exists errors. split; [exact E |].
    apply Hok; [discriminate | vm_compute; tauto].
Defined.

Lemma in_rules {A} (a b c : bool) (x y z e : A) :
  In e ((if a then [x] else []) ++ (if b then [] else [y]) ++ (if c then [z] else []))%list
  <-> (a = true /\ e = x) \/ (b = false /\ e = y) \/ (c = true /\ e = z).
Proof.
  destruct a, b, c; simpl; split; intros H;
    repeat match goal with
           | H : _ \/ _ |- _ => destruct H
           | H : _ /\ _ |- _ => destruct H
           | H : False |- _ => destruct H
           end;
    subst; try discriminate; auto 6.
Qed.

(** C7.  A name whose lower-cased extension is outside the allow-list puts
    the type violation in the result whatever the declared size is, and the
    three rules are evaluated independently: the result holds exactly the
    violations of the rules that are triggered. *)
Theorem validate_file_type_rule (kvs : list (string * json)) (size : Z) (name : string) :
  Py.get (JObj kvs) "size" (JInt 0) = Ret (JInt size) ->
  Py.get (JObj kvs) "name" (JStr "") = Ret (JStr name) ->
  exists errors,
    validate_file (JObj kvs) = Ret errors /\
    (~ In (extension name) allowed_extensions -> In (type_error (extension name)) errors) /\
    (forall e, In e errors <->
       ((MAX_FILE_SIZE < size)%Z /\ e = size_error) \/
       (~ In (extension name) allowed_extensions /\ e = type_error (extension name)) \/
       ((name = "" \/ 255 < String.length name) /\ e = name_error)).
Proof.
  intros Hsize Hname. eexists. split; [apply validate_file_rules; eassumption |].
  assert (Hn : name_invalid name = true <-> name = "" \/ 255 < String.length name).
  { unfold name_invalid. rewrite orb_true_iff, String.eqb_eq, Nat.ltb_lt. tauto. }
  assert (Ha : str_in (extension name) allowed_extensions = false
               <-> ~ In (extension name) allowed_extensions).
  { rewrite <- str_in_In. destruct (str_in _ _); split; intros H; congruence. }
  split.
  - intros Hout. apply in_rules. right. left. split; [now apply Ha | reflexivity].
  - intros e. rewrite in_rules, Z.ltb_lt, Ha, Hn. reflexivity.
Qed.

Lemma validate_file_type_rule_witness :
  exists errors,
    validate_file (JObj [("name", JStr "Setup.EXE"); ("size", JInt 209715200)]) = Ret errors /\
    In (type_error ".exe") errors.
Proof.
  destruct (validate_file_type_rule
              [("name", JStr "Setup.EXE"); ("size", JInt 209715200)] 209715200 "Setup.EXE")
    as (errors & E & Hty & _); [reflexivity | reflexivity |].
  exists errors. split; [exact E |].
  apply Hty. vm_compute. intros H.
  repeat (destruct H as [H | H]; [discriminate |]). exact H.
Defined.

(** ** File identifiers *)

Lemma prefix_append (p s : string) : String.prefix p (p +:+ s) = true.
Proof.
  induction p as [| c p IH]; simpl.
  - now destruct s.
  - destruct (ascii_dec c c); [exact IH | congruence].
Qed.

Lemma append_inj_r (p s t : string) : p +:+ s = p +:+ t -> s = t.
Proof.
  induction p as [| c p IH]; simpl; intros H; [exact H |].
  injection H as H. now apply IH.
Qed.

Lemma hexdigest_take8_length (msg : list N) :
  String.length (PyStr.take 8 (MD5.hexdigest msg)) = 8.
Proof.
  unfold MD5.hexdigest, MD5.digest.
  destruct (MD5.chunks _ _ _) as [[[A B] C] D]. reflexivity.
Qed.

(** The clock readings [Demo.t1] and [Demo.t2] differ, yet owner [u1] gets
    the same id for photo.jpg at both: distinct instants do not always give
    distinct ids. *)
Lemma generate_file_id_collision :
  ~ (forall uid fname ta tb : string,
        ta <> tb -> file_id_at uid fname ta <> file_id_at uid fname tb).
Proof.
  intros H.
  apply (H "u1" "photo.jpg" Demo.t1 Demo.t2); [discriminate | vm_compute; reflexivity].
Qed.

(** Every generated id is the owner id, an underscore and the eight-digit
    fingerprint of owner, name and instant; [generate_file_id] reads the
    clock once. *)
Lemma generate_file_id_shape (env : Env) (uid fname : string) (w : World) :
  let id := file_id_at uid fname (utcnow env (ticks w)) in
  generate_file_id env uid fname w = (Ret id, advance w) /\
  id = uid +:+ "_" +:+ fingerprint uid fname (utcnow env (ticks w)) /\
  PyStr.startswith uid id = true /\
  String.length (fingerprint uid fname (utcnow env (ticks w))) = 8.
Proof.
  cbv zeta. repeat split.
  - apply prefix_append.
  - apply hexdigest_take8_length.
Qed.

(** C5.  [generate_file_id] for owner [u1] and name photo.jpg, called when
    the clock reads [Demo.t1] and called again when it reads [Demo.t2]: the
    two instants differ and the two calls return the same id, u1_982480fb,
    because only the first eight digits of the digest enter the id.  Both
    ids start with the owner id. *)
Theorem generate_file_id_repeats :
  Demo.t1 <> Demo.t2 /\
  utcnow Demo.env 0 = Demo.t1 /\
  utcnow Demo.env 4 = Demo.t2 /\
  fst (generate_file_id Demo.env "u1" "photo.jpg" {| files := ∅; ticks := 0; calls := [] |})
  = Ret "u1_982480fb" /\
  fst (generate_file_id Demo.env "u1" "photo.jpg" {| files := ∅; ticks := 4; calls := [] |})
  = Ret "u1_982480fb" /\
  PyStr.startswith "u1" "u1_982480fb" = true.
Proof.
  split; [discriminate |]. repeat split; vm_compute; reflexivity.
Qed.

(** ** Running the operations *)

Lemma bind_lift_ret {A B} (a : A) (f : A -> M B) (w : World) :
  (lift (Ret a) ≫= f) w = f a w.
Proof. reflexivity. Qed.

Lemma bind_lift_raise {A B} (e : exn) (f : A -> M B) (w : World) :
  (lift (Raise e) ≫= f) w = (Raise e, w).
Proof. reflexivity. Qed.

Lemma create_signed_url_run (env : Env) (fid fname uid operation : string) (w : World) :
  create_signed_url env fid fname uid operation w =
  (Ret (generate_presigned_url env (s3_operation operation) (s3_key_of uid fid fname)
          (s3_content_type operation fname)),
   log_call (s3_call fid fname uid operation) w).
Proof.
  unfold create_signed_url, presigned_url, s3_call, s3_operation, s3_content_type, extension.
  munfold.
  destruct (String.eqb operation "put_object"); simpl;
    destruct (generate_presigned_url env _ _ _); reflexivity.
Qed.

Lemma verify_token_run (env : Env) (token : string) (w : World) :
  verify_token env token w =
  match jwt_get_unverified_claims env token with
  | None => (Ret None, w)
  | Some sub =>
      (Ret ((fun r => {| ui_user_id := sub; ui_username := fst r; ui_attributes := snd r |})
              <$> cognito_get_user env token),
       log_call (CognitoGetUser token) w)
  end.
Proof.
  unfold verify_token, get_user. munfold.
  destruct (jwt_get_unverified_claims env token); [| reflexivity].
  destruct (cognito_get_user env token); reflexivity.
Qed.

Lemma store_file_metadata_run (env : Env) (fid uid fname : string)
    (fkvs mkvs : list (string * json)) (w : World) :
  let it := built_item env fid uid fname fkvs mkvs w in
  let w1 := log_call (DynamoPutItem it) (advance (advance w)) in
  store_file_metadata env fid uid fname (JObj fkvs) (JObj mkvs) w =
  match dynamo_error env (DynamoPutItem it) with
  | Some _ => (Ret false, w1)
  | None => (Ret true, with_files (<[(fid, uid) := it]> (files w)) w1)
  end.
Proof.
  unfold store_file_metadata, put_item, built_item, extension. munfold. simpl.
  destruct (dynamo_error env _); reflexivity.
Qed.

Lemma store_file_metadata_effect (env : Env) (fid uid fname : string) (fi md : json) (w : World) :
  let r := store_file_metadata env fid uid fname fi md w in
  (fst r = Ret false /\ files (snd r) = files w) \/
  (fst r = Ret true /\
   exists it, item_key it = (fid, uid) /\ status it = uploading /\
              files (snd r) = <[(fid, uid) := it]> (files w) /\
              calls (snd r) = (calls w ++ [DynamoPutItem it])%list).
Proof.
  destruct fi as [| | | | |fkvs]; try (left; split; reflexivity).
  destruct md as [| | | | |mkvs]; try (left; split; reflexivity).
  cbv zeta. rewrite store_file_metadata_run.
  destruct (dynamo_error env _).
  - left. split; reflexivity.
  - right. split; [reflexivity |].
    exists (built_item env fid uid fname fkvs mkvs w).
    repeat split.
Qed.

Lemma truthy_str (s : string) : s <> "" -> Py.truthy (JStr s) = true.
Proof.
  intros H. simpl. destruct (String.eqb s "") eqn:E; [| reflexivity].
  apply String.eqb_eq in E. contradiction.
Qed.

Lemma handle_get_download_url_run (env : Env) (body : json) (uid fid : string) (w : World) :
  Py.get body "file_id" JNull = Ret (JStr fid) ->
  fid <> "" ->
  handle_get_download_url env body uid w =
  let w1 := log_call (DynamoGetItem (JStr fid) uid) w in
  match dynamo_error env (DynamoGetItem (JStr fid) uid) with
  | Some _ => (Ret internal_error, w1)
  | None =>
      match files w !! (fid, uid) with
      | None => (Ret not_found, w1)
      | Some it =>
          let url := generate_presigned_url env "get_object" (s3_key_of uid fid (filename it)) None in
          (Ret (if no_url url then download_failed
                else if holds_number it then internal_error
                else download_ok (default "" url) it),
           log_call (s3_call fid (filename it) uid "get_object") w1)
      end
  end.
Proof.
  intros Hget Hne. unfold handle_get_download_url. rewrite Hget.
  unfold get_item. munfold. rewrite (truthy_str _ Hne). simpl.
  destruct (dynamo_error env _); [reflexivity |].
  simpl. destruct (files w !! (fid, uid)) as [it |]; [| reflexivity].
  rewrite create_signed_url_run. simpl.
  destruct (no_url _); [reflexivity |].
  unfold holds_number. simpl.
  destruct (Py.has_number (file_size it) || _); reflexivity.
Qed.

Lemma handle_get_download_url_files (env : Env) (body : json) (uid : string) (w : World) :
  files (snd (handle_get_download_url env body uid w)) = files w.
Proof.
  unfold handle_get_download_url, get_item. munfold.
  destruct (Py.get body "file_id" JNull) as [fid |]; [| reflexivity].
  destruct (negb (Py.truthy fid)); [reflexivity |]. simpl.
  destruct (dynamo_error env _); [reflexivity |].
  destruct fid; try reflexivity. simpl.
  destruct (files w !! _) as [it |]; [| reflexivity].
  rewrite create_signed_url_run. simpl. destruct (no_url _); [reflexivity |].
  destruct (Py.has_number (file_size it) || _); reflexivity.
Qed.

Lemma handle_complete_upload_run (env : Env) (body : json) (uid fid : string) (w : World) :
  Py.get body "file_id" JNull = Ret (JStr fid) ->
  fid <> "" ->
  handle_complete_upload env body uid w =
  let ts := utcnow env (ticks w) in
  let w1 := log_call (DynamoUpdateItem (JStr fid) uid ts) (advance w) in
  match dynamo_error env (DynamoUpdateItem (JStr fid) uid ts) with
  | Some (ClientError code) =>
      (Ret (if String.eqb code "ConditionalCheckFailedException"
            then not_found_or_denied else database_error), w1)
  | Some e => (Raise e, w1)
  | None =>
      match files w !! (fid, uid) with
      | Some it =>
          if String.eqb (user_id it) uid
          then (Ret completed_ok, with_files (<[(fid, uid) := set_completed ts it]> (files w)) w1)
          else (Ret not_found_or_denied, w1)
      | None => (Ret not_found_or_denied, w1)
      end
  end.
Proof.
  intros Hget Hne. unfold handle_complete_upload. rewrite Hget.
  unfold update_item. munfold. rewrite (truthy_str _ Hne). msimpl.
  destruct (dynamo_error env _) as [e |].
  - destruct e; msimpl; try reflexivity. destruct (String.eqb code _); reflexivity.
  - msimpl. destruct (files w !! (fid, uid)) as [it |]; [| reflexivity].
    destruct (String.eqb (user_id it) uid); reflexivity.
Qed.

Lemma handle_complete_upload_effect (env : Env) (body : json) (uid : string) (w : World) :
  effect w (snd (handle_complete_upload env body uid w)).
Proof.
  unfold handle_complete_upload.
  destruct (Py.get body "file_id" JNull) as [fid |] eqn:Hget; [| now apply effect_none].
  unfold mbind at 1, M_bind, lift.
  destruct (negb (Py.truthy fid)) eqn:Ht; [now apply effect_none |].
  unfold update_item. msimpl.
  destruct (dynamo_error env _) as [e |].
  { destruct e; msimpl; try (now apply effect_none).
    destruct (String.eqb _ _); now apply effect_none. }
  destruct fid as [| | | f | |]; msimpl; try (now apply effect_none).
  destruct (files w !! (f, uid)) as [it |] eqn:Hl; [| now apply effect_none].
  destruct (String.eqb (user_id it) uid); [| now apply effect_none].
  simpl. eapply (effect_update _ _ f uid _ it []); [exact Hl | reflexivity | reflexivity].
Qed.

Lemma validate_file_name (fi : json) (errors : list string) :
  validate_file fi = Ret errors ->
  exists name, Py.get fi "name" (JStr "") = Ret (JStr name).
Proof.
  unfold validate_file. destruct fi as [| | | | |kvs]; try discriminate.
  unfold mbind, outcome_bind. simpl.
  destruct (Py.gt_int _ _); [| discriminate].
  destruct (default (JStr "") (Py.dict_get kvs "name")); try discriminate.
  intros _. eexists. reflexivity.
Qed.

Lemma handle_get_upload_url_run (env : Env) (body fi md : json) (uid fname : string) (w : World) :
  Py.get body "file_info" (JObj []) = Ret fi ->
  Py.get body "metadata" (JObj []) = Ret md ->
  validate_file fi = Ret [] ->
  Py.get fi "name" (JStr "") = Ret (JStr fname) ->
  handle_get_upload_url env body uid w =
  let fid := file_id_at uid fname (utcnow env (ticks w)) in
  let url := generate_presigned_url env "put_object" (s3_key_of uid fid fname)
               (Some (content_type_of (extension fname))) in
  let w1 := log_call (s3_call fid fname uid "put_object") (advance w) in
  if no_url url then (Ret url_failed, w1)
  else
    let r := store_file_metadata env fid uid fname fi md w1 in
    (match fst r with
     | Ret true => Ret (upload_ok (default "" url) fid)
     | Ret false => Ret store_failed
     | Raise e => Raise e
     end, snd r).
Proof.
  intros Hfi Hmd Hval Hname. unfold handle_get_upload_url.
  mstep Hfi. mstep Hmd. mstep Hval. mstep Hname.
  unfold generate_file_id. msimpl.
  rewrite create_signed_url_run. simpl.
  destruct (no_url _); [reflexivity |].
  destruct (store_file_metadata env _ uid fname fi md _) as [[[|] | e] w2]; reflexivity.
Qed.

Lemma effect_log_call (c : Call) (w w' : World) : effect (log_call c w) w' -> effect w w'.
Proof.
  intros [H | it mid Hs Hf Hc | f u ts it mid Hl Hf Hc].
  - now apply effect_none.
  - apply (effect_put _ _ it (c :: mid)); [assumption | assumption |].
    rewrite Hc. simpl. now rewrite <- app_assoc.
  - apply (effect_update _ _ f u ts it (c :: mid)); [assumption | assumption |].
    rewrite Hc. simpl. now rewrite <- app_assoc.
Qed.

Lemma effect_advance (w w' : World) : effect (advance w) w' -> effect w w'.
Proof.
  intros [H | it mid Hs Hf Hc | f u ts it mid Hl Hf Hc].
  - now apply effect_none.
  - now apply (effect_put _ _ it mid).
  - now apply (effect_update _ _ f u ts it mid).
Qed.

Lemma handle_get_upload_url_effect (env : Env) (body : json) (uid : string) (w : World) :
  effect w (snd (handle_get_upload_url env body uid w)).
Proof.
  destruct (Py.get body "file_info" (JObj [])) as [fi |] eqn:Hfi;
    [| unfold handle_get_upload_url; mstep Hfi; now apply effect_none].
  destruct (Py.get body "metadata" (JObj [])) as [md |] eqn:Hmd;
    [| unfold handle_get_upload_url; mstep Hfi; mstep Hmd; now apply effect_none].
  destruct (validate_file fi) as [errors |] eqn:Hval;
    [| unfold handle_get_upload_url; mstep Hfi; mstep Hmd; mstep Hval; now apply effect_none].
  destruct errors as [| e errors];
    [| unfold handle_get_upload_url; mstep Hfi; mstep Hmd; mstep Hval; now apply effect_none].
  destruct (validate_file_name _ _ Hval) as [fname Hname].
  rewrite (handle_get_upload_url_run env body fi md uid fname w Hfi Hmd Hval Hname).
  cbv zeta. destruct (no_url _); [now apply effect_none |]. simpl.
  apply effect_advance; eapply effect_log_call.
  destruct (store_file_metadata_effect env (file_id_at uid fname (utcnow env (ticks w)))
              uid fname fi md
              (log_call (s3_call (file_id_at uid fname (utcnow env (ticks w))) fname uid
                           "put_object") (advance w)))
    as [[_ H] | [_ (it & Hk & Hs & Hf & Hc)]].
  - now apply effect_none.
  - apply (effect_put _ _ it []); [exact Hs | now rewrite Hk | exact Hc].
Qed.

Lemma snd_try_except_const {A} (m : M A) (r : A) (w : World) :
  snd (try_except m (fun _ => mret r) w) = snd (m w).
Proof. unfold try_except. destruct (m w) as [[a | e] w']; reflexivity. Qed.

Lemma dispatch_effect (env : Env) (body : json) (uid : string) (w : World) :
  effect w (snd (dispatch env body uid w)).
Proof.
  unfold dispatch.
  destruct (Py.get body "operation" (JStr "get_upload_url")) as [op |] eqn:Hop; mstep Hop;
    [| now apply effect_none].
  destruct (Py.eq_str op "get_upload_url"); [apply handle_get_upload_url_effect |].
  destruct (Py.eq_str op "complete_upload"); [apply handle_complete_upload_effect |].
  destruct (Py.eq_str op "get_download_url"); [| now apply effect_none].
  apply effect_none, handle_get_download_url_files.
Qed.

Lemma handler_effect (env : Env) (event : json) (w : World) :
  effect w (snd (handler env event w)).
Proof.
  unfold handler. rewrite snd_try_except_const.
  destruct (Py.get event "httpMethod" JNull) as [m |] eqn:Hm; mstep Hm;
    [| now apply effect_none].
  destruct (Py.eq_str m "OPTIONS"); [now apply effect_none |].
  destruct (Py.get event "headers" (JObj [])) as [hdrs |] eqn:Hh; mstep Hh;
    [| now apply effect_none].
  destruct (Py.get hdrs "Authorization" (JStr "")) as [a |] eqn:Ha; mstep Ha;
    [| now apply effect_none].
  destruct (Py.startswith a "Bearer ") as [b |] eqn:Hb; mstep Hb;
    [| now apply effect_none].
  destruct b; [| now apply effect_none]. cbn [negb].
  destruct (Py.split_item a 1) as [token |] eqn:Ht; mstep Ht;
    [| now apply effect_none].
  unfold mbind at 1, M_bind. rewrite verify_token_run.
  destruct (jwt_get_unverified_claims env token) as [sub |]; [| now apply effect_none].
  destruct (cognito_get_user env token) as [r |]; [| now apply effect_none].
  cbn [fmap option_fmap option_map]. apply (effect_log_call (CognitoGetUser token)).
  destruct (Py.get event "body" (JStr "{}")) as [raw |] eqn:Hr; mstep Hr;
    [| now apply effect_none].
  unfold parse_body.
  destruct raw as [| | | s | |]; try (now apply effect_none).
  destruct (json_loads env s) as [body |]; [| now apply effect_none].
  apply dispatch_effect.
Qed.


(** ** Creating a record *)

Example demo_uploaded : files Demo.w_uploaded !! (Demo.fid, "u1") = Some Demo.uploaded_record.
Proof. vm_compute. reflexivity. Qed.

Example demo_completed : files Demo.w_completed !! (Demo.fid, "u1") = Some Demo.completed_record.
Proof. vm_compute. reflexivity. Qed.

Example demo_again : files Demo.w_again !! (Demo.fid, "u1") = Some Demo.second_record.
Proof. vm_compute. reflexivity. Qed.




(** ** The life of a record *)

Lemma demo_completed_reachable : reachable Demo.w_completed.
Proof. repeat apply reachable_handler. apply (reachable_empty 0 []). Qed.

(** [Demo.w_completed] is reached by an upload request and its confirmation;
    a further upload request of the same name, at an instant whose
    fingerprint is the same, puts the completed record back to [uploading]. *)
Lemma status_reverts_to_uploading :
  ~ (forall (env : Env) (event : json) (w : World) (k : string * string) (it it' : Item),
        reachable w ->
        files w !! k = Some it ->
        files (snd (handler env event w)) !! k = Some it' ->
        status it = completed -> status it' = completed).
Proof.
  intros H.
  assert (E : status Demo.second_record = completed).
  { apply (H Demo.env (Demo.request "tok-u1" Demo.upload_body_no_op) Demo.w_completed
             (Demo.fid, "u1") Demo.completed_record Demo.second_record).
    - exact demo_completed_reachable.
    - exact demo_completed.
    - exact demo_again.
    - reflexivity. }
  discriminate E.
Qed.

(** A request for an upload URL leaves every record as it is or replaces it
    by one in [uploading] status. *)
Lemma handle_get_upload_url_keeps (env : Env) (body : json) (uid : string) (w : World)
    (k : string * string) (it : Item) :
  files w !! k = Some it ->
  exists it', files (snd (handle_get_upload_url env body uid w)) !! k = Some it' /\
              (it' = it \/ status it' = uploading).
Proof.
  intros Hk.
  destruct (Py.get body "file_info" (JObj [])) as [fi |] eqn:Hfi;
    [| unfold handle_get_upload_url; mstep Hfi; eauto].
  destruct (Py.get body "metadata" (JObj [])) as [md |] eqn:Hmd;
    [| unfold handle_get_upload_url; mstep Hfi; mstep Hmd; eauto].
  destruct (validate_file fi) as [errors |] eqn:Hval;
    [| unfold handle_get_upload_url; mstep Hfi; mstep Hmd; mstep Hval; eauto].
  destruct errors as [| e errors];
    [| unfold handle_get_upload_url; mstep Hfi; mstep Hmd; mstep Hval; eauto].
  destruct (validate_file_name _ _ Hval) as [fname Hname].
  rewrite (handle_get_upload_url_run env body fi md uid fname w Hfi Hmd Hval Hname).
  cbv zeta. destruct (no_url _); [eauto |]. cbn [snd].
  match goal with
  | |- context [store_file_metadata env ?f uid fname fi md ?w1] =>
      destruct (store_file_metadata_effect env f uid fname fi md w1)
        as [[_ H] | [_ (it0 & Hk0 & Hs & Hf & Hc)]]
  end.
  - rewrite H. eauto.
  - rewrite Hf. cbn [files log_call advance].
    destruct (decide ((file_id_at uid fname (utcnow env (ticks w)), uid) = k)) as [<- | Hne].
    + rewrite lookup_insert_eq. eauto.
    + rewrite lookup_insert_ne by exact Hne. eauto.
Qed.

(** C2.  Three requests of owner [u1], from the empty table: a request for
    an upload URL for photo.jpg when the clock reads [Demo.t1], the
    confirmation of the returned id u1_982480fb, and a second request for an
    upload URL for photo.jpg when the clock reads [Demo.t2].  After the
    second request the record is [completed]; the third is answered 200
    with the same id, and the record under that id is then a new one in
    [uploading] status. *)
Theorem completed_record_put_back :
  let third := handler Demo.env (Demo.request "tok-u1" Demo.upload_body_no_op) Demo.w_completed in
  reachable Demo.w_completed /\
  files Demo.w_completed !! (Demo.fid, "u1") = Some Demo.completed_record /\
  status Demo.completed_record = completed /\
  fst third
  = Ret (upload_ok
           "https://media.s3.amazonaws.com/uploads/u1/u1_982480fb/photo.jpg?X-Amz-Expires=3600&op=put_object"
           Demo.fid) /\
  files (snd third) !! (Demo.fid, "u1") = Some Demo.second_record /\
  status Demo.second_record = uploading.
Proof.
  cbv zeta. split; [exact demo_completed_reachable |].
  split; [exact demo_completed |]. split; [reflexivity |].
  split; [vm_compute; reflexivity |].
  split; [exact demo_again | reflexivity].
Qed.

(** X20.  One call of [handler] never deletes a record and changes an
    existing record in two ways only: the [update_item] of the
    confirm-upload operation, for the record's own key, sets its status to
    [completed] and refreshes [last_modified] (also when it is completed
    already); the [put_item] of a request-upload whose generated file id is
    the record's, for the same owner, replaces it by a fresh record in
    [uploading] status.  An operation other than [complete_upload] never
    turns an [uploading] record into a [completed] one: it leaves the record
    or puts an [uploading] one in its place. *)
Theorem record_changes (env : Env) (event : json) (w : World) (k : string * string) (it : Item) :
  files w !! k = Some it ->
  (exists it', files (snd (handler env event w)) !! k = Some it' /\
     (it' = it \/
      (exists ts mid,
          it' = set_completed ts it /\
          calls (snd (handler env event w))
          = (calls w ++ mid ++ [DynamoUpdateItem (JStr (fst k)) (snd k) ts])%list) \/
      (exists mid,
          status it' = uploading /\ item_key it' = k /\
          calls (snd (handler env event w)) = (calls w ++ mid ++ [DynamoPutItem it'])%list))) /\
  (forall body uid op,
      Py.get body "operation" (JStr "get_upload_url") = Ret op ->
      Py.eq_str op "complete_upload" = false ->
      exists it', files (snd (dispatch env body uid w)) !! k = Some it' /\
                  (it' = it \/ status it' = uploading)).
Proof.
  intros Hk. split.
  - destruct (handler_effect env event w) as [H | it0 mid Hs Hf Hc | f u ts it0 mid Hl Hf Hc].
    + exists it. rewrite H. auto.
    + rewrite Hf. destruct (decide (item_key it0 = k)) as [E | Hne].
      * exists it0. rewrite E, lookup_insert_eq. split; [reflexivity |].
        right. right. exists mid. auto.
      * exists it. rewrite lookup_insert_ne by exact Hne. auto.
    + rewrite Hf. destruct (decide ((f, u) = k)) as [<- | Hne].
      * exists (set_completed ts it). rewrite lookup_insert_eq.
        assert (it0 = it) as -> by congruence.
        split; [reflexivity |]. right. left. exists ts, mid. auto.
      * exists it. rewrite lookup_insert_ne by exact Hne. auto.
  - intros body uid op Hop Hnc. unfold dispatch. mstep Hop. rewrite Hnc.
    destruct (Py.eq_str op "get_upload_url"); [now apply handle_get_upload_url_keeps |].
    destruct (Py.eq_str op "get_download_url").
    + rewrite handle_get_download_url_files. eauto.
    + eauto.
Qed.

Lemma record_changes_witness :
  exists it', files (snd (handler Demo.env (Demo.request "tok-u1" Demo.complete_body)
                            Demo.w_uploaded)) !! (Demo.fid, "u1") = Some it' /\
     (it' = Demo.uploaded_record \/
      (exists ts mid,
          it' = set_completed ts Demo.uploaded_record /\
          calls (snd (handler Demo.env (Demo.request "tok-u1" Demo.complete_body)
                        Demo.w_uploaded))
          = (calls Demo.w_uploaded ++ mid ++ [DynamoUpdateItem (JStr Demo.fid) "u1" ts])%list) \/
      (exists mid,
          status it' = uploading /\ item_key it' = (Demo.fid, "u1") /\
          calls (snd (handler Demo.env (Demo.request "tok-u1" Demo.complete_body)
                        Demo.w_uploaded))
          = (calls Demo.w_uploaded ++ mid ++ [DynamoPutItem it'])%list)).
Proof.
  exact (proj1 (record_changes Demo.env (Demo.request "tok-u1" Demo.complete_body)
                  Demo.w_uploaded (Demo.fid, "u1") Demo.uploaded_record demo_uploaded)).
Defined.

(** ** Ownership *)

Lemma table_wf_empty : table_wf ∅.
Proof. intros k it H. rewrite lookup_empty in H. discriminate. Qed.

Lemma table_wf_insert (t : gmap (string * string) Item) (it : Item) :
  table_wf t -> table_wf (<[item_key it := it]> t).
Proof.
  intros Hwf k it' H. destruct (decide (item_key it = k)) as [<- | Hne].
  - rewrite lookup_insert_eq in H. congruence.
  - rewrite lookup_insert_ne in H by exact Hne. now apply Hwf.
Qed.

Lemma effect_wf (w w' : World) : effect w w' -> table_wf (files w) -> table_wf (files w').
Proof.
  intros [H | it mid Hs Hf Hc | f u ts it mid Hl Hf Hc] Hwf.
  - now rewrite H.
  - rewrite Hf. now apply table_wf_insert.
  - rewrite Hf. pose proof (Hwf _ _ Hl) as Hk.
    replace (f, u) with (item_key (set_completed ts it)) by exact Hk.
    now apply table_wf_insert.
Qed.

Lemma reachable_wf (w : World) : reachable w -> table_wf (files w).
Proof.
  induction 1 as [n cs | env event w _ IH].
  - apply table_wf_empty.
  - exact (effect_wf _ _ (handler_effect env event w) IH).
Qed.

Lemma get_item_run (env : Env) (fid uid : string) (w : World) :
  get_item env (JStr fid) uid w =
  match dynamo_error env (DynamoGetItem (JStr fid) uid) with
  | Some e => (Raise e, log_call (DynamoGetItem (JStr fid) uid) w)
  | None => (Ret (files w !! (fid, uid)), log_call (DynamoGetItem (JStr fid) uid) w)
  end.
Proof.
  unfold get_item. munfold. simpl. destruct (dynamo_error env _); reflexivity.
Qed.

(** C3.  On a table where every item sits under its own key (every reachable
    table is such), for distinct owners [owner_a] and [owner_b] and any file
    id: a [get_item] issued under [owner_a] only ever returns [owner_a]'s own
    record; a successful request-download under [owner_a] is built from
    [owner_a]'s own record and a URL for [owner_a]'s own object key; when
    [owner_a] has no record under that file id the answer is 404 not-found,
    whatever [owner_b] has stored; and the answer does not depend on any
    record of [owner_b]. *)
Theorem download_owner_isolation (env : Env) (w : World) (body : json)
    (fid owner_a owner_b : string) :
  table_wf (files w) ->
  owner_a <> owner_b ->
  Py.get body "file_id" JNull = Ret (JStr fid) ->
  fid <> "" ->
  (forall it w1,
      get_item env (JStr fid) owner_a w = (Ret (Some it), w1) ->
      files w !! (fid, owner_a) = Some it /\ user_id it = owner_a /\ user_id it <> owner_b) /\
  (forall resp,
      fst (handle_get_download_url env body owner_a w) = Ret resp ->
      statusCode resp = 200%Z ->
      exists it url,
        files w !! (fid, owner_a) = Some it /\ user_id it = owner_a /\
        generate_presigned_url env "get_object" (s3_key_of owner_a fid (filename it)) None
        = Some url /\
        resp = download_ok url it) /\
  (files w !! (fid, owner_a) = None ->
   dynamo_error env (DynamoGetItem (JStr fid) owner_a) = None ->
   handle_get_download_url env body owner_a w
   = (Ret not_found, log_call (DynamoGetItem (JStr fid) owner_a) w)) /\
  (forall f it_b,
      fst (handle_get_download_url env body owner_a
             (with_files (<[(f, owner_b) := it_b]> (files w)) w))
      = fst (handle_get_download_url env body owner_a w)).
Proof.
  intros Hwf Hab Hget Hne. repeat split.
  - rewrite get_item_run in H. destruct (dynamo_error env _); congruence.
  - rewrite get_item_run in H. destruct (dynamo_error env _); [discriminate |].
    injection H as H _. apply Hwf in H. now injection H.
  - rewrite get_item_run in H. destruct (dynamo_error env _); [discriminate |].
    injection H as H _. apply Hwf in H. injection H as _ H. congruence.
  - intros resp Hr Hs.
    rewrite (handle_get_download_url_run env body owner_a fid w Hget Hne) in Hr.
    cbv zeta in Hr. destruct (dynamo_error env _).
    { injection Hr as <-. discriminate Hs. }
    destruct (files w !! (fid, owner_a)) as [it |] eqn:Hl.
    2:{ injection Hr as <-. discriminate Hs. }
    cbn [fst] in Hr. injection Hr as <-.
    destruct (generate_presigned_url env "get_object" _ None) as [url |] eqn:Hu;
      [| discriminate Hs].
    destruct (no_url (Some url)) eqn:Hn; [discriminate Hs |].
    destruct (holds_number it); [discriminate Hs |].
    exists it, url. pose proof (Hwf _ _ Hl) as Hkey. injection Hkey as _ Hu'. auto.
  - intros Hnone Herr.
    rewrite (handle_get_download_url_run env body owner_a fid w Hget Hne).
    cbv zeta. now rewrite Herr, Hnone.
  - intros f it_b.
    rewrite !(handle_get_download_url_run env body owner_a fid _ Hget Hne).
    cbv zeta. cbn [files with_files].
    rewrite lookup_insert_ne by congruence.
    destruct (dynamo_error env _); [reflexivity |].
    destruct (files w !! (fid, owner_a)); reflexivity.
Qed.

Lemma download_owner_isolation_witness :
  files Demo.w_completed !! (Demo.fid, "u1") = Some Demo.completed_record /\
  handle_get_download_url Demo.env Demo.download_body "u2" Demo.w_completed
  = (Ret not_found, log_call (DynamoGetItem (JStr Demo.fid) "u2") Demo.w_completed).
Proof.
  split; [exact demo_completed |].
  destruct (download_owner_isolation Demo.env Demo.w_completed Demo.download_body Demo.fid
              "u2" "u1" (reachable_wf _ demo_completed_reachable))
    as (_ & _ & H & _); [discriminate | reflexivity | discriminate |].
  apply H; [vm_compute; reflexivity | reflexivity].
Defined.

(** ** Requesting an upload *)

Lemma no_url_false (url : option string) :
  no_url url = false -> exists u, url = Some u /\ u <> "".
Proof.
  destruct url as [u |]; [| discriminate]. simpl. intros H. exists u. split; [reflexivity |].
  intros ->. discriminate H.
Qed.

(** What a request for an upload URL can answer. *)
Lemma handle_get_upload_url_responses (env : Env) (body : json) (uid : string) (w : World)
    (resp : Response) :
  fst (handle_get_upload_url env body uid w) = Ret resp ->
  (exists e errors, resp = validation_failed (e :: errors)) \/
  resp = url_failed \/ resp = store_failed \/
  (exists url fid, resp = upload_ok url fid).
Proof.
  destruct (Py.get body "file_info" (JObj [])) as [fi |] eqn:Hfi;
    [| unfold handle_get_upload_url; mstep Hfi; discriminate].
  destruct (Py.get body "metadata" (JObj [])) as [md |] eqn:Hmd;
    [| unfold handle_get_upload_url; mstep Hfi; mstep Hmd; discriminate].
  destruct (validate_file fi) as [errors |] eqn:Hval;
    [| unfold handle_get_upload_url; mstep Hfi; mstep Hmd; mstep Hval; discriminate].
  destruct errors as [| e errors].
  2:{ unfold handle_get_upload_url. mstep Hfi. mstep Hmd. mstep Hval.
      intros H. injection H as <-. left. eauto. }
  destruct (validate_file_name _ _ Hval) as [fname Hname].
  rewrite (handle_get_upload_url_run env body fi md uid fname w Hfi Hmd Hval Hname).
  cbv zeta. destruct (no_url _).
  { intros H. injection H as <-. auto. }
  cbn [fst].
  destruct (fst (store_file_metadata env _ uid fname fi md _)) as [[|] | e]; intros H;
    [injection H as <- | injection H as <- | discriminate]; eauto 6.
Qed.

(** C4.  In request-upload: a 200 answer is given only when the presigned
    URL was issued (a non-empty URL came back from S3) and the record sits in
    the table, in [uploading] status, under the returned file id; when URL
    issuance fails the answer is the 500 [url_failed], the table is left as
    it was and DynamoDB is not called; when the URL was issued and storing
    the record then fails, the answer is the 500 [store_failed]. *)
Theorem request_upload_all_or_nothing (env : Env) (body : json) (uid : string) (w : World) :
  (forall resp,
      fst (handle_get_upload_url env body uid w) = Ret resp ->
      statusCode resp = 200%Z ->
      exists fname url it,
        let fid := file_id_at uid fname (utcnow env (ticks w)) in
        generate_presigned_url env "put_object" (s3_key_of uid fid fname)
          (Some (content_type_of (extension fname))) = Some url /\
        url <> "" /\
        files (snd (handle_get_upload_url env body uid w)) !! (fid, uid) = Some it /\
        status it = uploading /\
        resp = upload_ok url fid) /\
  (forall fi md fname,
      Py.get body "file_info" (JObj []) = Ret fi ->
      Py.get body "metadata" (JObj []) = Ret md ->
      validate_file fi = Ret [] ->
      Py.get fi "name" (JStr "") = Ret (JStr fname) ->
      let fid := file_id_at uid fname (utcnow env (ticks w)) in
      let url := generate_presigned_url env "put_object" (s3_key_of uid fid fname)
                   (Some (content_type_of (extension fname))) in
      let w1 := log_call (s3_call fid fname uid "put_object") (advance w) in
      (no_url url = true ->
       fst (handle_get_upload_url env body uid w) = Ret url_failed /\
       files (snd (handle_get_upload_url env body uid w)) = files w /\
       calls (snd (handle_get_upload_url env body uid w))
       = (calls w ++ [s3_call fid fname uid "put_object"])%list) /\
      (no_url url = false ->
       fst (store_file_metadata env fid uid fname fi md w1) = Ret false ->
       fst (handle_get_upload_url env body uid w) = Ret store_failed)).
Proof.
  split.
  - intros resp Hr Hs.
    destruct (Py.get body "file_info" (JObj [])) as [fi |] eqn:Hfi;
      [| unfold handle_get_upload_url in Hr; revert Hr; mstep Hfi; discriminate].
    destruct (Py.get body "metadata" (JObj [])) as [md |] eqn:Hmd;
      [| unfold handle_get_upload_url in Hr; revert Hr; mstep Hfi; mstep Hmd; discriminate].
    destruct (validate_file fi) as [errors |] eqn:Hval;
      [| unfold handle_get_upload_url in Hr; revert Hr; mstep Hfi; mstep Hmd; mstep Hval;
         discriminate].
    destruct errors as [| e errors].
    2:{ unfold handle_get_upload_url in Hr. revert Hr. mstep Hfi. mstep Hmd. mstep Hval.
        intros H. injection H as <-. discriminate Hs. }
    destruct (validate_file_name _ _ Hval) as [fname Hname].
    rewrite (handle_get_upload_url_run env body fi md uid fname w Hfi Hmd Hval Hname) in Hr |- *.
    cbv zeta in Hr |- *.
    destruct (no_url _) eqn:Hn.
    { injection Hr as <-. discriminate Hs. }
    destruct (no_url_false _ Hn) as (url & Hu & Hne).
    cbn [fst snd] in Hr |- *.
    match goal with
    | |- context [store_file_metadata env ?f uid fname fi md ?w1] =>
        destruct (store_file_metadata_effect env f uid fname fi md w1)
          as [[E H] | [E (it0 & Hk0 & Hst & Hf & Hc)]]
    end.
    + rewrite E in Hr. injection Hr as <-. discriminate Hs.
    + rewrite E in Hr. injection Hr as <-.
      exists fname, url, it0. cbv zeta. rewrite Hf, lookup_insert_eq, Hu. auto.
  - intros fi md fname Hfi Hmd Hval Hname. cbv zeta.
    rewrite (handle_get_upload_url_run env body fi md uid fname w Hfi Hmd Hval Hname).
    cbv zeta. split.
    + intros ->. cbn [fst snd]. auto.
    + intros -> ->. reflexivity.
Qed.

Lemma request_upload_all_or_nothing_witness :
  (fst (handle_get_upload_url Demo.env_s3_down Demo.upload_body "u1" Demo.empty_world)
   = Ret url_failed /\
   files (snd (handle_get_upload_url Demo.env_s3_down Demo.upload_body "u1" Demo.empty_world))
   = files Demo.empty_world) /\
  fst (handle_get_upload_url Demo.env_db_down Demo.upload_body "u1" Demo.empty_world)
  = Ret store_failed /\
  (exists fname url it,
      let fid := file_id_at "u1" fname (utcnow Demo.env (ticks Demo.empty_world)) in
      generate_presigned_url Demo.env "put_object" (s3_key_of "u1" fid fname)
        (Some (content_type_of (extension fname))) = Some url /\
      url <> "" /\
      files (snd (handle_get_upload_url Demo.env Demo.upload_body "u1" Demo.empty_world))
        !! (fid, "u1") = Some it /\
      status it = uploading /\
      upload_ok
        "https://media.s3.amazonaws.com/uploads/u1/u1_982480fb/photo.jpg?X-Amz-Expires=3600&op=put_object"
        Demo.fid
      = upload_ok url fid).
Proof.
  split; [| split].
  - destruct (proj2 (request_upload_all_or_nothing Demo.env_s3_down Demo.upload_body "u1"
                       Demo.empty_world)
                (JObj [("name", JStr "photo.jpg"); ("size", JInt 1024);
                       ("type", JStr "image/jpeg")])
                (JObj [("title", JStr "Holiday"); ("description", JStr "Beach");
                       ("tags", JArr [JStr "family"])])
                "photo.jpg" eq_refl eq_refl eq_refl eq_refl) as [H _].
    destruct (H eq_refl) as (H1 & H2 & _). split; [exact H1 | exact H2].
  - destruct (proj2 (request_upload_all_or_nothing Demo.env_db_down Demo.upload_body "u1"
                       Demo.empty_world)
                (JObj [("name", JStr "photo.jpg"); ("size", JInt 1024);
                       ("type", JStr "image/jpeg")])
                (JObj [("title", JStr "Holiday"); ("description", JStr "Beach");
                       ("tags", JArr [JStr "family"])])
                "photo.jpg" eq_refl eq_refl eq_refl eq_refl) as [_ H].
    apply H; vm_compute; reflexivity.
  - apply (proj1 (request_upload_all_or_nothing Demo.env Demo.upload_body "u1"
                    Demo.empty_world)); vm_compute; reflexivity.
Defined.

(** ** The handler *)

Lemma handler_options (env : Env) (event m : json) (w : World) :
  Py.get event "httpMethod" JNull = Ret m ->
  Py.eq_str m "OPTIONS" = true ->
  handler env event w = (Ret options_ok, w).
Proof.
  intros Hm Ho. unfold handler, try_except. mstep Hm. rewrite Ho. reflexivity.
Qed.

Lemma handler_run (env : Env) (event m hdrs : json) (a : string) (w : World) :
  Py.get event "httpMethod" JNull = Ret m ->
  Py.eq_str m "OPTIONS" = false ->
  Py.get event "headers" (JObj []) = Ret hdrs ->
  Py.get hdrs "Authorization" (JStr "") = Ret (JStr a) ->
  handler env event w =
  if PyStr.startswith "Bearer " a then
    match nth_error (PyStr.split " " a) 1 with
    | None => (Ret internal_error, w)
    | Some token =>
        match jwt_get_unverified_claims env token with
        | None => (Ret invalid_token, w)
        | Some sub =>
            match cognito_get_user env token with
            | None => (Ret invalid_token, log_call (CognitoGetUser token) w)
            | Some _ =>
                try_except
                  (raw ← lift (Py.get event "body" (JStr "{}"));
                   parsed ← parse_body env raw;
                   match parsed with
                   | None => mret invalid_json
                   | Some body => dispatch env body sub
                   end)
                  (fun _ => mret internal_error)
                  (log_call (CognitoGetUser token) w)
            end
        end
    end
  else (Ret missing_header, w).
Proof.
  intros Hm Ho Hh Ha. unfold handler. unfold try_except at 1.
  mstep Hm. rewrite Ho. mstep Hh. mstep Ha.
  unfold Py.startswith, Py.split_item. rewrite bind_lift_ret. cbn beta.
  destruct (PyStr.startswith "Bearer " a); [| reflexivity]. cbn [negb].
  destruct (nth_error (PyStr.split " " a) 1) as [token |];
    rewrite ?bind_lift_ret, ?bind_lift_raise; cbn beta; [| reflexivity].
  unfold mbind at 1, M_bind. rewrite verify_token_run.
  destruct (jwt_get_unverified_claims env token) as [sub |]; [| reflexivity].
  destruct (cognito_get_user env token) as [r |]; [| reflexivity].
  cbn [fmap option_fmap option_map ui_user_id]. unfold try_except.
  destruct ((lift (Py.get event "body" (JStr "{}")) ≫= _) (log_call (CognitoGetUser token) w))
    as [[resp | e] w2]; reflexivity.
Qed.

(** X21.  For a request that is not a preflight, whose [headers] entry is
    absent or a dictionary and whose [Authorization] value is absent or a
    string: when the value is absent (its default is the empty string) or
    does not start with [Bearer ], [handler] answers the 401
    [missing_header] and leaves the world as it was, so no operation was
    dispatched and no collaborator was contacted; when the header has the
    form but [verify_token] fails, for whatever cause, the answer is the one
    401 [invalid_token], the table and the clock are untouched and at most
    the Cognito call was made. *)
Theorem handler_rejects_unauthenticated (env : Env) (event m hdrs : json) (a : string)
    (w : World) :
  Py.get event "httpMethod" JNull = Ret m ->
  Py.eq_str m "OPTIONS" = false ->
  Py.get event "headers" (JObj []) = Ret hdrs ->
  Py.get hdrs "Authorization" (JStr "") = Ret (JStr a) ->
  (PyStr.startswith "Bearer " a = false ->
   handler env event w = (Ret missing_header, w)) /\
  (forall token,
      PyStr.startswith "Bearer " a = true ->
      nth_error (PyStr.split " " a) 1 = Some token ->
      fst (verify_token env token w) = Ret None ->
      fst (handler env event w) = Ret invalid_token /\
      files (snd (handler env event w)) = files w /\
      ticks (snd (handler env event w)) = ticks w /\
      (calls (snd (handler env event w)) = calls w \/
       calls (snd (handler env event w)) = (calls w ++ [CognitoGetUser token])%list)) /\
  statusCode missing_header = 401%Z /\
  statusCode invalid_token = 401%Z.
Proof.
  intros Hm Ho Hh Ha.
  rewrite (handler_run env event m hdrs a w Hm Ho Hh Ha).
  split; [| split; [| split; reflexivity]].
  - intros ->. reflexivity.
  - intros token -> -> Hv. rewrite verify_token_run in Hv.
    destruct (jwt_get_unverified_claims env token) as [sub |]; [| cbn; auto].
    destruct (cognito_get_user env token) as [r |]; [discriminate Hv |].
    cbn. auto.
Qed.

Lemma handler_rejects_unauthenticated_witness :
  handler Demo.env (JObj [("httpMethod", JStr "POST"); ("headers", JObj []);
                          ("body", JStr (Json.dumps Demo.download_body))])
    Demo.w_completed
  = (Ret missing_header, Demo.w_completed) /\
  handler Demo.env (JObj [("httpMethod", JStr "POST");
                          ("headers", JObj [("Authorization", JStr "Basic dTE6cHc=")]);
                          ("body", JStr (Json.dumps Demo.download_body))])
    Demo.w_completed
  = (Ret missing_header, Demo.w_completed) /\
  fst (handler Demo.env (Demo.request "tok-expired" Demo.download_body) Demo.w_completed)
  = Ret invalid_token.
Proof.
  split; [| split].
  - apply (handler_rejects_unauthenticated Demo.env _ (JStr "POST") (JObj []) "");
      reflexivity.
  - apply (handler_rejects_unauthenticated Demo.env _ (JStr "POST")
             (JObj [("Authorization", JStr "Basic dTE6cHc=")]) "Basic dTE6cHc=");
      reflexivity.
  - destruct (handler_rejects_unauthenticated Demo.env
                (Demo.request "tok-expired" Demo.download_body) (JStr "POST")
                (JObj [("Authorization", JStr "Bearer tok-expired")]) "Bearer tok-expired"
                Demo.w_completed eq_refl eq_refl eq_refl eq_refl) as (_ & H & _).
    apply (H "tok-expired"); reflexivity.
Defined.

(** C8.  A request that carries no [Authorization] header because its
    [headers] entry is null, as API Gateway sends it for a request without
    headers: the default of [event.get('headers', {})] applies to a missing
    entry only, [None.get] raises, and [handler] answers the 500
    [internal_error], not a 401, whatever the collaborators and the table
    are; the world is left as it was. *)
Theorem handler_null_headers (env : Env) (w : World) :
  let event := JObj [("httpMethod", JStr "POST"); ("headers", JNull); ("body", JStr "{}")] in
  Py.get event "headers" (JObj []) = Ret JNull /\
  Py.get JNull "Authorization" (JStr "") = Raise AttributeError /\
  handler env event w = (Ret internal_error, w) /\
  statusCode internal_error = 500%Z.
Proof. cbv zeta. repeat split. Qed.

(** The answer to a preflight request carries a body. *)
Lemma options_has_body :
  ~ (forall (env : Env) (event : json) (w : World),
        Py.get event "httpMethod" JNull = Ret (JStr "OPTIONS") ->
        exists resp, fst (handler env event w) = Ret resp /\
                     statusCode resp = 200%Z /\ body resp = "").
Proof.
  intros H.
  destruct (H Demo.env (JObj [("httpMethod", JStr "OPTIONS")]) Demo.empty_world eq_refl)
    as (resp & Hr & _ & Hb).
  vm_compute in Hr. injection Hr as <-. vm_compute in Hb. discriminate Hb.
Qed.

(** C9, amended.  Every [OPTIONS] request, whatever its headers and body, is
    answered with status 200 and the JSON body that holds the one entry
    [message: OK]; the world is left as it was. *)
Theorem handler_options_answer (env : Env) (event : json) (w : World) :
  Py.get event "httpMethod" JNull = Ret (JStr "OPTIONS") ->
  handler env event w = (Ret options_ok, w) /\
  statusCode options_ok = 200%Z /\
  body options_ok = "{" +:+ Json.quote "message" +:+ ": " +:+ Json.quote "OK" +:+ "}" /\
  body options_ok <> "".
Proof.
  intros Hm. split; [| split; [| split]].
  - now apply (handler_options env event (JStr "OPTIONS")).
  - reflexivity.
  - vm_compute. reflexivity.
  - vm_compute. discriminate.
Qed.

Lemma handler_options_answer_witness :
  handler Demo.env
    (JObj [("httpMethod", JStr "OPTIONS"); ("headers", JObj []); ("body", JNull)])
    Demo.w_completed
  = (Ret options_ok, Demo.w_completed).
Proof.
  apply (handler_options_answer Demo.env
           (JObj [("httpMethod", JStr "OPTIONS"); ("headers", JObj []); ("body", JNull)])
           Demo.w_completed eq_refl).
Defined.

Lemma verify_token_some (env : Env) (token : string) (ui : UserInfo) (w w1 : World) :
  verify_token env token w = (Ret (Some ui), w1) ->
  jwt_get_unverified_claims env token = Some (ui_user_id ui) /\
  (exists r, cognito_get_user env token = Some r) /\
  w1 = log_call (CognitoGetUser token) w.
Proof.
  rewrite verify_token_run.
  destruct (jwt_get_unverified_claims env token) as [sub |]; [| discriminate].
  destruct (cognito_get_user env token) as [r |]; [| discriminate].
  intros H. injection H as <- <-. eauto.
Qed.

Lemma upload_answer_not_invalid_operation (env : Env) (req : json) (uid : string) (w : World) :
  fst (try_except (handle_get_upload_url env req uid) (fun _ => mret internal_error) w)
  <> Ret invalid_operation.
Proof.
  unfold try_except.
  destruct (handle_get_upload_url env req uid w) as [[resp | e] w'] eqn:E.
  - assert (Hr : fst (handle_get_upload_url env req uid w) = Ret resp) by now rewrite E.
    apply handle_get_upload_url_responses in Hr.
    cbn [fst]. intros H. injection H as ->.
    destruct Hr as [(e & errors & Hr) | [Hr | [Hr | (url & fid & Hr)]]];
      try (apply (f_equal statusCode) in Hr; discriminate Hr).
    apply (f_equal body) in Hr. apply (f_equal (PyStr.take 12)) in Hr.
    vm_compute in Hr. discriminate Hr.
  - cbn. intros H. injection H as H. discriminate H.
Qed.

(** C10.  For an authenticated request that is not a preflight and whose
    body parses to a dictionary without an [operation] entry, [handler]
    dispatches to [handle_get_upload_url]: its answer is that of the
    request-upload operation (a 500 if the operation raises), never the 400
    [invalid_operation]. *)
Theorem handler_default_operation (env : Env) (event m hdrs : json) (a token raw : string)
    (ui : UserInfo) (kvs : list (string * json)) (w w1 : World) :
  Py.get event "httpMethod" JNull = Ret m ->
  Py.eq_str m "OPTIONS" = false ->
  Py.get event "headers" (JObj []) = Ret hdrs ->
  Py.get hdrs "Authorization" (JStr "") = Ret (JStr a) ->
  PyStr.startswith "Bearer " a = true ->
  nth_error (PyStr.split " " a) 1 = Some token ->
  verify_token env token w = (Ret (Some ui), w1) ->
  Py.get event "body" (JStr "{}") = Ret (JStr raw) ->
  json_loads env raw = Some (JObj kvs) ->
  Py.dict_get kvs "operation" = None ->
  dispatch env (JObj kvs) (ui_user_id ui) w1
  = handle_get_upload_url env (JObj kvs) (ui_user_id ui) w1 /\
  handler env event w
  = try_except (handle_get_upload_url env (JObj kvs) (ui_user_id ui))
      (fun _ => mret internal_error) w1 /\
  fst (handler env event w) <> Ret invalid_operation.
Proof.
  intros Hm Ho Hh Ha Hb Ht Hv Hr Hl Hop.
  assert (Hd : forall w', dispatch env (JObj kvs) (ui_user_id ui) w'
                          = handle_get_upload_url env (JObj kvs) (ui_user_id ui) w').
  { intros w'. unfold dispatch, Py.get. rewrite Hop. reflexivity. }
  assert (Hh' : handler env event w
                = try_except (handle_get_upload_url env (JObj kvs) (ui_user_id ui))
                    (fun _ => mret internal_error) w1).
  { rewrite (handler_run env event m hdrs a w Hm Ho Hh Ha), Hb, Ht.
    destruct (verify_token_some env token ui w w1 Hv) as (-> & [r ->] & ->).
    unfold try_except. mstep Hr. unfold parse_body. rewrite Hl.
    unfold mbind, M_bind, mret, M_ret. rewrite Hd. reflexivity. }
  split; [apply Hd | split; [exact Hh' |]].
  rewrite Hh'. apply upload_answer_not_invalid_operation.
Qed.

Lemma handler_default_operation_witness :
  handler Demo.env (Demo.request "tok-u1" Demo.upload_body_no_op) Demo.w_completed
  = try_except (handle_get_upload_url Demo.env Demo.upload_body_no_op "u1")
      (fun _ => mret internal_error) (log_call (CognitoGetUser "tok-u1") Demo.w_completed) /\
  status_of (handler Demo.env (Demo.request "tok-u1" Demo.upload_body_no_op) Demo.w_completed)
  = Some 200%Z.
Proof.
  split; [| vm_compute; reflexivity].
  apply (handler_default_operation Demo.env
           (Demo.request "tok-u1" Demo.upload_body_no_op) (JStr "POST")
           (JObj [("Authorization", JStr "Bearer tok-u1")]) "Bearer tok-u1" "tok-u1"
           (Json.dumps Demo.upload_body_no_op)
           {| ui_user_id := "u1"; ui_username := "alice";
              ui_attributes := [("email", "alice@example.com")] |}
           [("file_info", JObj [("name", JStr "photo.jpg"); ("size", JInt 1024);
                                ("type", JStr "image/jpeg")]);
            ("metadata", JObj [("title", JStr "Second"); ("description", JStr "");
                               ("tags", JArr [])])]
           Demo.w_completed (log_call (CognitoGetUser "tok-u1") Demo.w_completed));
    vm_compute; reflexivity.
Defined.

(** * Further properties of the operations *)

(** ** Answers *)

Lemma handle_get_upload_url_api (env : Env) (req : json) (uid : string) (w : World)
    (resp : Response) :
  fst (handle_get_upload_url env req uid w) = Ret resp -> api_response resp.
Proof.
  intros H. apply handle_get_upload_url_responses in H.
  destruct H as [(e & errors & ->) | [-> | [-> | (url & fid & ->)]]]; api.
Qed.

Lemma handle_complete_upload_api (env : Env) (req : json) (uid : string) (w : World)
    (resp : Response) :
  fst (handle_complete_upload env req uid w) = Ret resp -> api_response resp.
Proof.
  unfold handle_complete_upload.
  destruct (Py.get req "file_id" JNull) as [fid |] eqn:Hget; mstep Hget; [| discriminate].
  destruct (negb (Py.truthy fid)).
  { intros H. injection H as <-. api. }
  unfold update_item. msimpl.
  destruct (dynamo_error env _) as [e |].
  { destruct e; msimpl; try discriminate.
    destruct (String.eqb _ _); intros H; injection H as <-; api. }
  destruct fid as [| | | f | |]; msimpl; try (intros H; injection H as <-; api).
  destruct (files w !! (f, uid)) as [it |]; [| intros H; injection H as <-; api].
  destruct (String.eqb (user_id it) uid); intros H; injection H as <-; api.
Qed.

Lemma handle_get_download_url_api (env : Env) (req : json) (uid : string) (w : World)
    (resp : Response) :
  fst (handle_get_download_url env req uid w) = Ret resp -> api_response resp.
Proof.
  unfold handle_get_download_url, get_item. munfold.
  destruct (Py.get req "file_id" JNull) as [fid |]; [| discriminate].
  destruct (negb (Py.truthy fid)); [intros H; injection H as <-; api |]. simpl.
  destruct (dynamo_error env _); [intros H; injection H as <-; api |].
  destruct fid; try (intros H; injection H as <-; api). simpl.
  destruct (files w !! _) as [it |]; [| intros H; injection H as <-; api].
  rewrite create_signed_url_run. simpl.
  destruct (no_url _); [intros H; injection H as <-; api |].
  destruct (Py.has_number (file_size it) || _); intros H; injection H as <-; api.
Qed.

Lemma dispatch_api (env : Env) (req : json) (uid : string) (w : World) (resp : Response) :
  fst (dispatch env req uid w) = Ret resp -> api_response resp.
Proof.
  unfold dispatch.
  destruct (Py.get req "operation" (JStr "get_upload_url")) as [op |] eqn:Hop; mstep Hop;
    [| discriminate].
  destruct (Py.eq_str op "get_upload_url"); [apply handle_get_upload_url_api |].
  destruct (Py.eq_str op "complete_upload"); [apply handle_complete_upload_api |].
  destruct (Py.eq_str op "get_download_url"); [apply handle_get_download_url_api |].
  intros H. injection H as <-. api.
Qed.

Lemma try_except_const_ret {A} (m : M A) (r : A) (w : World) :
  fst (try_except m (fun _ => mret r) w) =
  match fst (m w) with
  | Ret a => Ret a
  | Raise _ => Ret r
  end.
Proof. unfold try_except. destruct (m w) as [[a | e] w']; reflexivity. Qed.

(** X1.  [handler] never raises: whatever the event and whatever the
    collaborators do, it returns a response, whose status code is one of
    200, 400, 401, 404 and 500 and which carries the JSON content type and
    the CORS headers. *)
Theorem handler_always_answers (env : Env) (event : json) (w : World) :
  exists resp, fst (handler env event w) = Ret resp /\ api_response resp.
Proof.
  unfold handler. rewrite try_except_const_ret.
  match goal with |- context [fst (?m w)] => destruct (m w) as [[resp | e] w'] eqn:E end.
  2:{ eexists. split; [reflexivity | api]. }
  exists resp. split; [reflexivity |]. revert E.
  destruct (Py.get event "httpMethod" JNull) as [m |] eqn:Hm; mstep Hm; [| discriminate].
  destruct (Py.eq_str m "OPTIONS"); [intros H; injection H as <- _; api |].
  destruct (Py.get event "headers" (JObj [])) as [hdrs |] eqn:Hh; mstep Hh; [| discriminate].
  destruct (Py.get hdrs "Authorization" (JStr "")) as [a |] eqn:Ha; mstep Ha; [| discriminate].
  destruct (Py.startswith a "Bearer ") as [b |] eqn:Hb; mstep Hb; [| discriminate].
  destruct b; [| intros H; injection H as <- _; api]. cbn [negb].
  destruct (Py.split_item a 1) as [token |] eqn:Ht; mstep Ht; [| discriminate].
  unfold mbind at 1, M_bind. rewrite verify_token_run.
  destruct (jwt_get_unverified_claims env token) as [sub |];
    [| intros H; injection H as <- _; api].
  destruct (cognito_get_user env token) as [r |]; [| intros H; injection H as <- _; api].
  cbn [fmap option_fmap option_map].
  destruct (Py.get event "body" (JStr "{}")) as [raw |] eqn:Hr; mstep Hr; [| discriminate].
  unfold parse_body.
  destruct raw as [| | | s | |]; try discriminate.
  destruct (json_loads env s) as [req |]; [| intros H; injection H as <- _; api].
  unfold mbind, M_bind, mret, M_ret. cbn [ui_user_id].
  intros H. apply (dispatch_api env req sub (log_call (CognitoGetUser token) w)).
  now rewrite H.
Qed.


(** ** Principals and records *)

Lemma category_of_allowed (e : string) :
  In e allowed_extensions -> exists c, category_of e = Some c.
Proof.
  intros H. vm_compute in H.
  repeat (destruct H as [<- | H]; [eexists; vm_compute; reflexivity |]).
  destruct H.
Qed.

Lemma validate_file_rules_any (kvs : list (string * json)) (big : bool) (name : string) :
  Py.gt_int (default (JInt 0) (Py.dict_get kvs "size")) MAX_FILE_SIZE = Ret big ->
  Py.get (JObj kvs) "name" (JStr "") = Ret (JStr name) ->
  validate_file (JObj kvs) =
  Ret ((if big then [size_error] else [])
       ++ (if str_in (extension name) allowed_extensions then []
           else [type_error (extension name)])
       ++ (if name_invalid name then [name_error] else []))%list.
Proof.
  intros Hsize Hname. unfold validate_file. rewrite Hname.
  unfold Py.get at 1. unfold mbind, outcome_bind. rewrite Hsize.
  unfold mret, outcome_ret, Py.splitext_ext, Py.truthy, Py.len, name_invalid.
  fold (extension name).
  destruct big, (str_in (extension name) allowed_extensions), (String.eqb name ""); simpl;
    try destruct (255 <? String.length name)%nat; reflexivity.
Qed.

Lemma validate_file_accepts (kvs : list (string * json)) :
  validate_file (JObj kvs) = Ret [] ->
  exists fname,
    Py.get (JObj kvs) "name" (JStr "") = Ret (JStr fname) /\
    size_ok (default (JInt 0) (Py.dict_get kvs "size")) /\
    In (extension fname) allowed_extensions /\
    fname <> "" /\ String.length fname <= 255.
Proof.
  intros Hv. destruct (validate_file_name _ _ Hv) as [fname Hname].
  exists fname. split; [exact Hname |].
  destruct (Py.gt_int (default (JInt 0) (Py.dict_get kvs "size")) MAX_FILE_SIZE)
    as [big | e] eqn:Hbig.
  2:{ unfold validate_file, Py.get in Hv. unfold mbind, outcome_bind in Hv.
      cbn beta iota in Hv. rewrite Hbig in Hv. simpl in Hv. congruence. }
  rewrite (validate_file_rules_any kvs big fname Hbig Hname) in Hv.
  destruct big, (str_in (extension fname) allowed_extensions) eqn:Ha,
    (name_invalid fname) eqn:Hn; try (cbn [app] in Hv; discriminate Hv).
  unfold name_invalid in Hn. apply orb_false_iff in Hn as [Hn Hl].
  repeat split.
  - destruct (default (JInt 0) (Py.dict_get kvs "size")) as [| b | z | | |];
      try discriminate Hbig; cbn in Hbig |- *; [exact I |].
    injection Hbig as Hbig. now apply Z.ltb_ge.
  - now apply str_in_In.
  - intros ->. discriminate Hn.
  - now apply Nat.ltb_ge.
Qed.

Lemma built_item_fresh (env : Env) (uid fname : string) (fkvs mkvs : list (string * json))
    (w0 w : World) :
  validate_file (JObj fkvs) = Ret [] ->
  Py.get (JObj fkvs) "name" (JStr "") = Ret (JStr fname) ->
  fresh_record uid
    (built_item env (file_id_at uid fname (utcnow env (ticks w0))) uid fname fkvs mkvs w).
Proof.
  intros Hv Hname. destruct (validate_file_accepts fkvs Hv) as (fname' & Hn & Hs & He & Hne & Hl).
  assert (fname' = fname) as -> by congruence.
  destruct (category_of_allowed _ He) as [c Hc].
  constructor; unfold built_item, new_item;
    cbn [file_id user_id filename file_type file_size s3_key version];
    try reflexivity; try assumption.
  - eexists. reflexivity.
  - rewrite Hc. reflexivity.
  - split; assumption.
Qed.

Lemma handle_get_upload_url_step (env : Env) (req : json) (uid : string) (w : World) :
  owner_step uid (files w) (files (snd (handle_get_upload_url env req uid w))).
Proof.
  destruct (Py.get req "file_info" (JObj [])) as [fi |] eqn:Hfi;
    [| unfold handle_get_upload_url; mstep Hfi; now apply owner_step_none].
  destruct (Py.get req "metadata" (JObj [])) as [md |] eqn:Hmd;
    [| unfold handle_get_upload_url; mstep Hfi; mstep Hmd; now apply owner_step_none].
  destruct (validate_file fi) as [errors |] eqn:Hval;
    [| unfold handle_get_upload_url; mstep Hfi; mstep Hmd; mstep Hval;
       now apply owner_step_none].
  destruct errors as [| e errors];
    [| unfold handle_get_upload_url; mstep Hfi; mstep Hmd; mstep Hval;
       now apply owner_step_none].
  destruct (validate_file_name _ _ Hval) as [fname Hname].
  rewrite (handle_get_upload_url_run env req fi md uid fname w Hfi Hmd Hval Hname).
  cbv zeta. destruct (no_url _); [now apply owner_step_none |]. cbn [snd].
  destruct fi as [| | | | | fkvs]; try discriminate Hval.
  destruct md as [| | | | | mkvs]; try (now apply owner_step_none).
  rewrite store_file_metadata_run. cbv zeta.
  destruct (dynamo_error env _); [now apply owner_step_none |].
  cbn [snd files with_files log_call advance].
  match goal with
  | |- context [<[ _ := ?it ]> _] => apply (owner_step_create _ _ _ it)
  end; [now apply built_item_fresh | reflexivity | reflexivity].
Qed.

Lemma handle_complete_upload_step (env : Env) (req : json) (uid : string) (w : World) :
  owner_step uid (files w) (files (snd (handle_complete_upload env req uid w))).
Proof.
  unfold handle_complete_upload.
  destruct (Py.get req "file_id" JNull) as [fid |] eqn:Hget; mstep Hget;
    [| now apply owner_step_none].
  destruct (negb (Py.truthy fid)); [now apply owner_step_none |].
  unfold update_item. msimpl.
  destruct (dynamo_error env _) as [e |].
  { destruct e; msimpl; try (now apply owner_step_none).
    destruct (String.eqb _ _); now apply owner_step_none. }
  destruct fid as [| | | f | |]; msimpl; try (now apply owner_step_none).
  destruct (files w !! (f, uid)) as [it |] eqn:Hl; [| now apply owner_step_none].
  destruct (String.eqb (user_id it) uid); [| now apply owner_step_none].
  simpl. eapply owner_step_complete; [exact Hl | reflexivity].
Qed.

Lemma dispatch_step (env : Env) (req : json) (uid : string) (w : World) :
  owner_step uid (files w) (files (snd (dispatch env req uid w))).
Proof.
  unfold dispatch.
  destruct (Py.get req "operation" (JStr "get_upload_url")) as [op |] eqn:Hop; mstep Hop;
    [| now apply owner_step_none].
  destruct (Py.eq_str op "get_upload_url"); [apply handle_get_upload_url_step |].
  destruct (Py.eq_str op "complete_upload"); [apply handle_complete_upload_step |].
  destruct (Py.eq_str op "get_download_url"); [| now apply owner_step_none].
  apply owner_step_none, handle_get_download_url_files.
Qed.

Lemma handler_step_aux (env : Env) (event : json) (w w' : World) :
  snd (handler env event w) = w' ->
  files w' = files w \/
  exists uid, principal env event = Some uid /\ owner_step uid (files w) (files w').
Proof.
  unfold handler, principal, bearer_token. rewrite snd_try_except_const.
  destruct (Py.get event "httpMethod" JNull) as [m |] eqn:Hm; mstep Hm;
    [| intros <-; now left].
  destruct (Py.eq_str m "OPTIONS"); [intros <-; now left |].
  destruct (Py.get event "headers" (JObj [])) as [hdrs |] eqn:Hh; mstep Hh;
    [| intros <-; now left].
  destruct (Py.get hdrs "Authorization" (JStr "")) as [a |] eqn:Ha; mstep Ha;
    [| intros <-; now left].
  destruct (Py.startswith a "Bearer ") as [b |] eqn:Hb; mstep Hb; [| intros <-; now left].
  destruct b; [| intros <-; now left]. cbn [negb].
  destruct (Py.split_item a 1) as [token |] eqn:Ht; mstep Ht; [| intros <-; now left].
  destruct a as [| | | a | |]; try discriminate Hb.
  cbn in Hb. injection Hb as Hb. rewrite Hb.
  unfold Py.split_item in Ht.
  destruct (nth_error (PyStr.split " " a) 1) as [token' |]; [| discriminate Ht].
  injection Ht as ->.
  unfold mbind at 1, M_bind. rewrite verify_token_run.
  destruct (jwt_get_unverified_claims env token) as [sub |]; [| intros <-; now left].
  destruct (cognito_get_user env token) as [r |]; [| intros <-; now left].
  cbn [fmap option_fmap option_map].
  destruct (Py.get event "body" (JStr "{}")) as [raw |] eqn:Hr; mstep Hr;
    [| intros <-; now left].
  unfold parse_body.
  destruct raw as [| | | s | |]; try (intros <-; now left).
  destruct (json_loads env s) as [req |]; [| intros <-; now left].
  intros <-. right. exists sub. split; [reflexivity |].
  exact (dispatch_step env req sub (log_call (CognitoGetUser token) w)).
Qed.

(** A call of [handler] leaves the table alone or makes one step for the
    principal of the request. *)
Lemma handler_step (env : Env) (event : json) (w : World) :
  files (snd (handler env event w)) = files w \/
  exists uid, principal env event = Some uid /\
              owner_step uid (files w) (files (snd (handler env event w))).
Proof. now apply handler_step_aux. Qed.

(** X2.  A request only touches records of its own principal: the record
    under a key whose owner is not the verified principal of the request
    (in particular under any key when the request does not authenticate) is
    the same before and after [handler]. *)
Theorem handler_touches_only_principal (env : Env) (event : json) (w : World)
    (k : string * string) :
  principal env event <> Some (snd k) ->
  files (snd (handler env event w)) !! k = files w !! k.
Proof.
  intros Hp. destruct (handler_step env event w) as [-> | (uid & Hu & Hs)]; [reflexivity |].
  assert (Hne : uid <> snd k) by congruence.
  destruct Hs as [-> | it _ _ -> | f ts it _ ->]; [reflexivity | |];
    apply lookup_insert_ne; intros <-; now apply Hne.
Qed.

Lemma handler_touches_only_principal_witness :
  files (snd (handler Demo.env (Demo.request "tok-u2" Demo.complete_body) Demo.w_uploaded))
    !! (Demo.fid, "u1")
  = files Demo.w_uploaded !! (Demo.fid, "u1").
Proof.
  apply (handler_touches_only_principal Demo.env (Demo.request "tok-u2" Demo.complete_body)
           Demo.w_uploaded (Demo.fid, "u1")).
  vm_compute. discriminate.
Defined.

Lemma fresh_record_completed (uid ts : string) (it : Item) :
  fresh_record uid it -> fresh_record uid (set_completed ts it).
Proof. intros [H1 H2 H3 H4 H5 H6 H7 H8]. constructor; assumption. Qed.

(** X3.  Every record of a reachable table was made from a request that
    passed validation: it sits under its own file id and owner; its file id
    is the one generated for its owner and file name at some instant; its
    object key is [uploads/owner/file id/name]; its version is 1; its name
    is not empty, has at most 255 characters and an extension of the
    allow-list, whose category is its file type; and its declared size is
    an integer of at most [MAX_FILE_SIZE] (possibly negative) or a JSON
    boolean. *)
Theorem reachable_records_validated (w : World) (k : string * string) (it : Item) :
  reachable w ->
  files w !! k = Some it ->
  file_id it = fst k /\ fresh_record (snd k) it.
Proof.
  intros Hr. revert k it.
  induction Hr as [n cs | env event w _ IH]; intros k it Hk.
  - cbn in Hk. rewrite lookup_empty in Hk. discriminate Hk.
  - destruct (handler_step env event w) as [E | (uid & _ & Hs)].
    + rewrite E in Hk. now apply IH.
    + destruct Hs as [E | it0 Hf _ E | f ts it0 Hl E]; rewrite E in Hk.
      * now apply IH.
      * destruct (decide ((file_id it0, uid) = k)) as [<- | Hne].
        -- rewrite lookup_insert_eq in Hk. injection Hk as <-. split; [reflexivity | exact Hf].
        -- rewrite lookup_insert_ne in Hk by exact Hne. now apply IH.
      * destruct (decide ((f, uid) = k)) as [<- | Hne].
        -- rewrite lookup_insert_eq in Hk. injection Hk as <-.
           destruct (IH _ _ Hl) as [H1 H2]. split; [exact H1 |].
           now apply fresh_record_completed.
        -- rewrite lookup_insert_ne in Hk by exact Hne. now apply IH.
Qed.

Lemma reachable_records_validated_witness :
  file_id Demo.completed_record = Demo.fid /\ fresh_record "u1" Demo.completed_record.
Proof.
  exact (reachable_records_validated Demo.w_completed (Demo.fid, "u1") Demo.completed_record
           demo_completed_reachable demo_completed).
Defined.


(** ** Edge cases of the three operations *)

(** X4.  Confirm-upload and request-download without a usable [file_id]
    (the entry is absent, or is an empty string, zero, false, null or an
    empty list or dictionary) are answered 400 before anything else happens:
    the world is left as it was. *)
Theorem missing_file_id_rejected (env : Env) (req v : json) (uid : string) (w : World) :
  Py.get req "file_id" JNull = Ret v ->
  Py.truthy v = false ->
  handle_complete_upload env req uid w = (Ret missing_file_id, w) /\
  handle_get_download_url env req uid w = (Ret missing_file_id, w).
Proof.
  intros Hget Hv. unfold handle_complete_upload, handle_get_download_url.
  mstep Hget. rewrite Hv. split; reflexivity.
Qed.

Lemma missing_file_id_rejected_witness :
  handle_complete_upload Demo.env (JObj [("operation", JStr "complete_upload")]) "u1"
    Demo.w_uploaded = (Ret missing_file_id, Demo.w_uploaded) /\
  handle_get_download_url Demo.env (JObj [("operation", JStr "complete_upload")]) "u1"
    Demo.w_uploaded = (Ret missing_file_id, Demo.w_uploaded).
Proof.
  apply (missing_file_id_rejected Demo.env (JObj [("operation", JStr "complete_upload")])
           JNull "u1" Demo.w_uploaded); reflexivity.
Defined.

(** X5.  Confirm-upload for a file id under which the caller has no record
    (none exists, or it belongs to another owner) changes no record and
    creates none, whatever DynamoDB does; when DynamoDB serves the call the
    answer is the 404 [not_found_or_denied]. *)
Theorem complete_upload_without_record (env : Env) (req : json) (uid fid : string)
    (w : World) :
  Py.get req "file_id" JNull = Ret (JStr fid) ->
  fid <> "" ->
  files w !! (fid, uid) = None ->
  files (snd (handle_complete_upload env req uid w)) = files w /\
  fst (handle_complete_upload env req uid w) <> Ret completed_ok /\
  (dynamo_error env (DynamoUpdateItem (JStr fid) uid (utcnow env (ticks w))) = None ->
   fst (handle_complete_upload env req uid w) = Ret not_found_or_denied).
Proof.
  intros Hget Hne Hnone.
  rewrite (handle_complete_upload_run env req uid fid w Hget Hne). cbv zeta.
  rewrite Hnone. destruct (dynamo_error env _) as [e |].
  - destruct e; cbn; repeat split; try discriminate.
    destruct (String.eqb code _); discriminate.
  - cbn. repeat split. discriminate.
Qed.

Lemma complete_upload_without_record_witness :
  files (snd (handle_complete_upload Demo.env Demo.complete_body "u2" Demo.w_uploaded))
  = files Demo.w_uploaded /\
  fst (handle_complete_upload Demo.env Demo.complete_body "u2" Demo.w_uploaded)
  = Ret not_found_or_denied.
Proof.
  destruct (complete_upload_without_record Demo.env Demo.complete_body "u2" Demo.fid
              Demo.w_uploaded) as (H1 & _ & H3);
    [reflexivity | discriminate | vm_compute; reflexivity |].
  split; [exact H1 | apply H3; reflexivity].
Defined.

(** X6.  Confirm-upload on a record of the caller, whatever its status:
    when DynamoDB serves the call the answer is 200, the record gets status
    [completed] and the clock reading as [last_modified], and nothing else
    in the table changes.  Confirming again succeeds again and only moves
    [last_modified]. *)
Theorem complete_upload_completes (env : Env) (req : json) (uid fid : string) (it : Item)
    (w : World) :
  Py.get req "file_id" JNull = Ret (JStr fid) ->
  fid <> "" ->
  files w !! (fid, uid) = Some it ->
  user_id it = uid ->
  (forall c, dynamo_error env c = None) ->
  let w1 := snd (handle_complete_upload env req uid w) in
  let w2 := snd (handle_complete_upload env req uid w1) in
  fst (handle_complete_upload env req uid w) = Ret completed_ok /\
  files w1 = <[(fid, uid) := set_completed (utcnow env (ticks w)) it]> (files w) /\
  fst (handle_complete_upload env req uid w1) = Ret completed_ok /\
  files w2 = <[(fid, uid) := set_completed (utcnow env (S (ticks w))) it]> (files w).
Proof.
  intros Hget Hne Hl Hu Hd. cbv zeta.
  assert (Hrun : handle_complete_upload env req uid w =
                 (Ret completed_ok,
                  with_files (<[(fid, uid) := set_completed (utcnow env (ticks w)) it]> (files w))
                    (log_call (DynamoUpdateItem (JStr fid) uid (utcnow env (ticks w)))
                       (advance w)))).
  { rewrite (handle_complete_upload_run env req uid fid w Hget Hne). cbv zeta.
    rewrite Hd, Hl, Hu, String.eqb_refl. reflexivity. }
  rewrite Hrun. cbn [fst snd].
  rewrite (handle_complete_upload_run env req uid fid _ Hget Hne). cbv zeta.
  rewrite Hd. cbn [files with_files log_call advance ticks].
  rewrite lookup_insert_eq. cbn [user_id set_completed]. rewrite Hu, String.eqb_refl.
  cbn [fst snd files with_files]. repeat split.
  now rewrite insert_insert_eq.
Qed.

Lemma complete_upload_completes_witness :
  fst (handle_complete_upload Demo.env Demo.complete_body "u1" Demo.w_uploaded)
  = Ret completed_ok /\
  files (snd (handle_complete_upload Demo.env Demo.complete_body "u1" Demo.w_uploaded))
  = <[(Demo.fid, "u1") :=
        set_completed (utcnow Demo.env (ticks Demo.w_uploaded)) Demo.uploaded_record]>
      (files Demo.w_uploaded).
Proof.
  destruct (complete_upload_completes Demo.env Demo.complete_body "u1" Demo.fid
              Demo.uploaded_record Demo.w_uploaded) as (H1 & H2 & _);
    [reflexivity | discriminate | exact demo_uploaded | reflexivity | reflexivity |].
  split; [exact H1 | exact H2].
Defined.

Lemma Py_get_dict (kvs : list (string * json)) (k : string) (d : json) :
  Py.get (JObj kvs) k d = Ret (default d (Py.dict_get kvs k)).
Proof. reflexivity. Qed.

(** X7.  A request for an upload URL whose file information breaks a rule
    is answered 400 with every violation listed, and nothing else happens:
    the clock is not read, no collaborator is called and no record is made. *)
Theorem invalid_upload_rejected (env : Env) (kvs : list (string * json)) (uid e : string)
    (errors : list string) (w : World) :
  validate_file (default (JObj []) (Py.dict_get kvs "file_info")) = Ret (e :: errors) ->
  handle_get_upload_url env (JObj kvs) uid w = (Ret (validation_failed (e :: errors)), w).
Proof.
  intros Hv. unfold handle_get_upload_url, Py.get.
  rewrite !bind_lift_ret. cbn beta. mstep Hv. reflexivity.
Qed.

Lemma invalid_upload_rejected_witness :
  handle_get_upload_url Demo.env
    (JObj [("file_info", JObj [("name", JStr ""); ("size", JInt 209715200)])]) "u1"
    Demo.w_uploaded
  = (Ret (validation_failed [size_error; type_error ""; name_error]), Demo.w_uploaded).
Proof.
  apply (invalid_upload_rejected Demo.env
           [("file_info", JObj [("name", JStr ""); ("size", JInt 209715200)])] "u1").
  vm_compute. reflexivity.
Defined.

(** The sizes on which the comparison with [MAX_FILE_SIZE] raises. *)
Lemma gt_int_raises (v : json) (n : Z) :
  v = JNull \/ (exists s, v = JStr s) \/ (exists l, v = JArr l) \/ (exists d, v = JObj d) ->
  Py.gt_int v n = Raise TypeError.
Proof. intros [-> | [[s ->] | [[l ->] | [d ->]]]]; reflexivity. Qed.

Lemma validate_file_raises (fi : json) :
  (forall kvs, fi <> JObj kvs) \/
  (exists kvs v, fi = JObj kvs /\ Py.get fi "size" (JInt 0) = Ret v /\
                 (v = JNull \/ (exists s, v = JStr s) \/ (exists l, v = JArr l) \/
                  (exists d, v = JObj d))) \/
  (exists kvs v big n,
      fi = JObj kvs /\ Py.get fi "size" (JInt 0) = Ret v /\
      Py.gt_int v MAX_FILE_SIZE = Ret big /\
      Py.get fi "name" (JStr "") = Ret n /\ forall s, n <> JStr s) ->
  exists e, validate_file fi = Raise e /\ (e = AttributeError \/ e = TypeError).
Proof.
  intros [H | [(kvs & v & -> & Hs & Hg) | (kvs & v & big & n & -> & Hs & Hg & Hn & Hns)]].
  - destruct fi; try (eexists; split; [reflexivity | auto]). now destruct (H kvs).
  - apply (gt_int_raises v MAX_FILE_SIZE) in Hg.
    unfold validate_file. rewrite Hs. unfold mbind, outcome_bind. rewrite Hg. eauto.
  - unfold validate_file. rewrite Hs, Hn. unfold mbind, outcome_bind. rewrite Hg.
    destruct n; try (eexists; split; [reflexivity | auto]). now destruct (Hns s).
Qed.

(** X8.  Ill-typed file information is not a validation error.  When
    [file_info] is not a dictionary, when its [size] is null, a string, a
    list or a dictionary, or when its [size] is an integer or a boolean and
    its [name] is not a string, [validate_file] raises, so an authenticated
    request for an upload URL is answered 500 [internal_error], not 400,
    after Cognito and nothing else was contacted, and the table is left as
    it was. *)
Theorem ill_typed_upload_is_internal_error (env : Env) (event m hdrs : json)
    (a token sub raw : string) (r : string * list (string * string))
    (kvs : list (string * json)) (w : World) :
  Py.get event "httpMethod" JNull = Ret m ->
  Py.eq_str m "OPTIONS" = false ->
  Py.get event "headers" (JObj []) = Ret hdrs ->
  Py.get hdrs "Authorization" (JStr "") = Ret (JStr a) ->
  PyStr.startswith "Bearer " a = true ->
  nth_error (PyStr.split " " a) 1 = Some token ->
  jwt_get_unverified_claims env token = Some sub ->
  cognito_get_user env token = Some r ->
  Py.get event "body" (JStr "{}") = Ret (JStr raw) ->
  json_loads env raw = Some (JObj kvs) ->
  Py.eq_str (default (JStr "get_upload_url") (Py.dict_get kvs "operation")) "get_upload_url"
  = true ->
  let fi := default (JObj []) (Py.dict_get kvs "file_info") in
  (forall fkvs, fi <> JObj fkvs) \/
  (exists fkvs v, fi = JObj fkvs /\ Py.get fi "size" (JInt 0) = Ret v /\
                  (v = JNull \/ (exists s, v = JStr s) \/ (exists l, v = JArr l) \/
                   (exists d, v = JObj d))) \/
  (exists fkvs v big n,
      fi = JObj fkvs /\ Py.get fi "size" (JInt 0) = Ret v /\
      Py.gt_int v MAX_FILE_SIZE = Ret big /\
      Py.get fi "name" (JStr "") = Ret n /\ forall s, n <> JStr s) ->
  handler env event w = (Ret internal_error, log_call (CognitoGetUser token) w).
Proof.
  intros Hm Ho Hh Ha Hb Ht Hj Hc Hr Hl Hop fi Hbad.
  destruct (validate_file_raises fi Hbad) as (e & He & _).
  rewrite (handler_run env event m hdrs a w Hm Ho Hh Ha), Hb, Ht, Hj, Hc.
  unfold try_except. mstep Hr. unfold parse_body. rewrite Hl.
  unfold mbind at 1, M_bind, mret at 1, M_ret.
  unfold dispatch. mstep (Py_get_dict kvs "operation" (JStr "get_upload_url")).
  rewrite Hop. unfold handle_get_upload_url.
  mstep (Py_get_dict kvs "file_info" (JObj [])).
  mstep (Py_get_dict kvs "metadata" (JObj [])).
  fold fi. mstep He. reflexivity.
Qed.

Lemma ill_typed_upload_is_internal_error_witness :
  handler Lab.env (Demo.request "tok-u1" Lab.size_text_body) Demo.empty_world
  = (Ret internal_error, log_call (CognitoGetUser "tok-u1") Demo.empty_world).
Proof.
  apply (ill_typed_upload_is_internal_error Lab.env
           (Demo.request "tok-u1" Lab.size_text_body)
           (JStr "POST") (JObj [("Authorization", JStr "Bearer tok-u1")])
           "Bearer tok-u1" "tok-u1" "u1" (Json.dumps Lab.size_text_body)
           ("alice", [("email", "alice@example.com")])
           [("file_info", JObj [("name", JStr "a.jpg"); ("size", JStr "12")])]
           Demo.empty_world); try reflexivity.
  right. left. exists [("name", JStr "a.jpg"); ("size", JStr "12")], (JStr "12").
  split; [reflexivity |]. split; [reflexivity |]. right. left. exists "12". reflexivity.
Defined.

Lemma store_file_metadata_bad_metadata (env : Env) (fid uid fname : string)
    (fkvs : list (string * json)) (md : json) (w : World) :
  (forall mkvs, md <> JObj mkvs) ->
  store_file_metadata env fid uid fname (JObj fkvs) md w = (Ret false, w).
Proof.
  intros H. destruct md; try reflexivity. now destruct (H kvs).
Qed.

(** X9.  Metadata that is not a dictionary is found out too late: for file
    information that passes validation, the upload URL is presigned first,
    then [store_file_metadata] fails before calling DynamoDB, and the answer
    is the 500 [store_failed]; an upload URL has been issued for which no
    record exists. *)
Theorem upload_with_bad_metadata (env : Env) (kvs : list (string * json)) (md : json)
    (uid fname : string) (w : World) :
  let fi := default (JObj []) (Py.dict_get kvs "file_info") in
  let fid := file_id_at uid fname (utcnow env (ticks w)) in
  validate_file fi = Ret [] ->
  Py.get fi "name" (JStr "") = Ret (JStr fname) ->
  default (JObj []) (Py.dict_get kvs "metadata") = md ->
  (forall mkvs, md <> JObj mkvs) ->
  no_url (generate_presigned_url env "put_object" (s3_key_of uid fid fname)
            (Some (content_type_of (extension fname)))) = false ->
  handle_get_upload_url env (JObj kvs) uid w
  = (Ret store_failed, log_call (s3_call fid fname uid "put_object") (advance w)).
Proof.
  intros fi fid Hv Hn Hmd Hbad Hurl.
  rewrite (handle_get_upload_url_run env (JObj kvs) fi md uid fname w);
    [| reflexivity | now rewrite <- Hmd | exact Hv | exact Hn].
  cbv zeta. fold fid. rewrite Hurl.
  destruct fi as [| | | | | fkvs] eqn:Hfi; try discriminate Hv.
  now rewrite store_file_metadata_bad_metadata.
Qed.

Lemma upload_with_bad_metadata_witness :
  handle_get_upload_url Lab.env Lab.text_metadata_body "u1" Demo.empty_world
  = (Ret store_failed,
     log_call (s3_call (file_id_at "u1" "a.jpg" Demo.t1) "a.jpg" "u1" "put_object")
       (advance Demo.empty_world)).
Proof.
  apply (upload_with_bad_metadata Lab.env
           [("file_info", JObj [("name", JStr "a.jpg"); ("size", JInt 12)]);
            ("metadata", JStr "holiday")] (JStr "holiday") "u1" "a.jpg" Demo.empty_world);
    try reflexivity.
  intros mkvs. discriminate.
Defined.


(** ** Extensions and accepted names *)

Lemma category_of_outside (e : string) :
  ~ In e allowed_extensions -> category_of e = None.
Proof.
  intros Hn. unfold category_of, ALLOWED_EXTENSIONS. cbn [List.find snd].
  repeat match goal with
         | |- context [str_in e ?l] =>
             destruct (str_in e l) eqn:H;
             [ exfalso; apply str_in_In in H; apply Hn; vm_compute in H |- *; tauto
             | clear H ]
         end.
  reflexivity.
Qed.

(** X10.  Validation, categories and content types agree on the extensions:
    an extension is in the list [validate_file] accepts exactly when
    [ALLOWED_EXTENSIONS] gives it a category, one of image, document, video
    and audio; exactly the other extensions are stored with file type
    [other] and presigned with the content type [application/octet-stream]. *)
Theorem extensions_coherent (e : string) :
  (In e allowed_extensions <-> exists c, category_of e = Some c /\ In c categories) /\
  (~ In e allowed_extensions <-> default "other" (category_of e) = "other") /\
  (~ In e allowed_extensions <-> content_type_of e = "application/octet-stream").
Proof.
  destruct (in_dec string_dec e allowed_extensions) as [Hin | Hout].
  - assert (H : (exists c, category_of e = Some c /\ In c categories) /\
                default "other" (category_of e) <> "other" /\
                content_type_of e <> "application/octet-stream").
    { vm_compute in Hin.
      repeat (destruct Hin as [<- | Hin];
              [split; [eexists; split; [vm_compute; reflexivity | vm_compute; tauto]
                      | split; vm_compute; discriminate] |]).
      destruct Hin. }
    destruct H as (H1 & H2 & H3). repeat split; intros; try assumption; contradiction.
  - pose proof (category_of_outside e Hout) as Hc.
    repeat split; intros; try assumption; try contradiction.
    + destruct H as (c & H & _). congruence.
    + now rewrite Hc.
    + unfold content_type_of. now rewrite Hc.
Qed.

Lemma take_drop (n : nat) (s : string) : PyStr.take n s +:+ PyStr.drop n s = s.
Proof.
  revert s. induction n as [| n IH]; intros s; [reflexivity |].
  destruct s as [| c s]; [reflexivity |].
  change (String c (PyStr.take n s +:+ PyStr.drop n s) = String c s). now rewrite IH.
Qed.

Lemma append_empty_r (s : string) : s +:+ "" = s.
Proof.
  induction s as [| c s IH]; [reflexivity |].
  change (String c (s +:+ "") = String c s). now rewrite IH.
Qed.

Lemma has_other_take (c : ascii) (lo hi : nat) (s : string) :
  PyStr.has_other c lo hi s = true -> PyStr.take hi s <> "".
Proof.
  destruct hi as [| hi], s as [| d s]; cbn; discriminate.
Qed.

(** [os.path.splitext] cuts its argument in two, and an extension comes
    with a stem that is not empty. *)
Lemma splitext_parts (p : string) :
  fst (PyStr.splitext p) +:+ snd (PyStr.splitext p) = p /\
  (snd (PyStr.splitext p) <> "" -> fst (PyStr.splitext p) <> "").
Proof.
  unfold PyStr.splitext.
  destruct (PyStr.rfind "." p) as [i |]; cbn [fst snd].
  - destruct (PyStr.has_other "." _ i p) eqn:H; cbn [fst snd].
    + split; [apply take_drop | intros _; exact (has_other_take _ _ _ _ H)].
    + split; [apply append_empty_r | congruence].
  - split; [apply append_empty_r | congruence].
Qed.

Lemma empty_not_allowed : ~ In "" allowed_extensions.
Proof. vm_compute. intros H. repeat (destruct H as [H | H]; [discriminate H |]). exact H. Qed.

Lemma lower_empty (s : string) : PyStr.lower s = "" -> s = "".
Proof. destruct s; [reflexivity | discriminate]. Qed.

(** X11.  What [validate_file] accepts: for an integer size and a string
    name the result is empty exactly when the size is at most
    [MAX_FILE_SIZE], the lower-cased extension is in the allow-list and the
    name has at most 255 characters; an accepted name is a non-empty stem
    followed by an extension that is, up to case, in the allow-list (so a
    name made of an extension alone, like [.jpg], is refused). *)
Theorem validate_file_accepts_exactly (kvs : list (string * json)) (size : Z) (name : string) :
  Py.get (JObj kvs) "size" (JInt 0) = Ret (JInt size) ->
  Py.get (JObj kvs) "name" (JStr "") = Ret (JStr name) ->
  (validate_file (JObj kvs) = Ret [] <->
   (size <= MAX_FILE_SIZE)%Z /\ In (extension name) allowed_extensions /\
   String.length name <= 255) /\
  (validate_file (JObj kvs) = Ret [] ->
   exists stem ext,
     name = stem +:+ ext /\ stem <> "" /\ In (PyStr.lower ext) allowed_extensions).
Proof.
  intros Hsize Hname.
  assert (Hacc : validate_file (JObj kvs) = Ret [] ->
                 (size <= MAX_FILE_SIZE)%Z /\ In (extension name) allowed_extensions /\
                 String.length name <= 255).
  { intros Hv. destruct (validate_file_accepts kvs Hv) as (n & Hn & Hs & He & _ & Hl).
    assert (n = name) as -> by congruence.
    unfold Py.get in Hsize. injection Hsize as Hsize. rewrite Hsize in Hs. auto. }
  split; [split; [exact Hacc |] |].
  - intros (Hs & He & Hl).
    rewrite (validate_file_rules_any kvs (MAX_FILE_SIZE <? size)%Z name);
      [| unfold Py.get in Hsize; injection Hsize as ->; reflexivity | exact Hname].
    apply Z.ltb_ge in Hs. rewrite Hs.
    apply str_in_In in He. rewrite He.
    unfold name_invalid.
    destruct (String.eqb name "") eqn:En.
    { apply String.eqb_eq in En. subst name. apply str_in_In in He.
      destruct (empty_not_allowed He). }
    apply Nat.ltb_ge in Hl. rewrite Hl. reflexivity.
  - intros Hv. destruct (Hacc Hv) as (_ & He & _).
    destruct (splitext_parts name) as [Hp Hstem].
    exists (fst (PyStr.splitext name)), (snd (PyStr.splitext name)).
    split; [now rewrite Hp | split; [| exact He]].
    apply Hstem. intros E. unfold extension in He. rewrite E in He.
    exact (empty_not_allowed He).
Qed.

Lemma validate_file_accepts_exactly_witness :
  validate_file (JObj [("name", JStr "a/b.c/Photo.JPG"); ("size", JInt 104857600)]) = Ret [] /\
  exists stem ext,
    "a/b.c/Photo.JPG" = stem +:+ ext /\ stem <> "" /\ In (PyStr.lower ext) allowed_extensions.
Proof.
  destruct (validate_file_accepts_exactly
              [("name", JStr "a/b.c/Photo.JPG"); ("size", JInt 104857600)] 104857600
              "a/b.c/Photo.JPG" eq_refl eq_refl) as [Hiff Hshape].
  assert (Hv : validate_file (JObj [("name", JStr "a/b.c/Photo.JPG");
                                    ("size", JInt 104857600)]) = Ret []).
  { apply Hiff. split; [discriminate | split; [vm_compute; tauto | vm_compute; lia]]. }
  split; [exact Hv | exact (Hshape Hv)].
Defined.


(** ** Tokens, downloads and undispatchable requests *)

Lemma split_not_nil (sep : ascii) (s : string) : PyStr.split sep s <> [].
Proof.
  destruct s as [| c s]; cbn [PyStr.split]; [discriminate |].
  destruct (Ascii.eqb c sep); [discriminate |].
  destruct (PyStr.split sep s); discriminate.
Qed.

Lemma split_without_sep (sep : ascii) (s : string) :
  contains sep s = false -> PyStr.split sep s = [s].
Proof.
  induction s as [| c s IH]; [reflexivity |]. cbn [contains PyStr.split].
  intros H. apply orb_false_iff in H as [Hc Hs]. rewrite Hc, (IH Hs). reflexivity.
Qed.

Lemma split_at_sep (sep : ascii) (s r : string) :
  contains sep s = false ->
  PyStr.split sep (s +:+ String sep r) = s :: PyStr.split sep r.
Proof.
  induction s as [| c s IH]; intros H.
  - change ("" +:+ String sep r) with (String sep r).
    cbn [PyStr.split]. now rewrite Ascii.eqb_refl.
  - cbn [contains] in H. apply orb_false_iff in H as [Hc Hs].
    change (String c s +:+ String sep r) with (String c (s +:+ String sep r)).
    cbn [PyStr.split]. rewrite Hc, (IH Hs). reflexivity.
Qed.

Lemma bearer_split (t : string) :
  contains " " t = false ->
  nth_error (PyStr.split " " ("Bearer " +:+ t)) 1 = Some t /\
  forall rest, nth_error (PyStr.split " " ("Bearer " +:+ t +:+ " " +:+ rest)) 1 = Some t.
Proof.
  intros Ht. split.
  - change ("Bearer " +:+ t) with ("Bearer" +:+ String " " t).
    rewrite split_at_sep by reflexivity. now rewrite split_without_sep.
  - intros rest.
    change ("Bearer " +:+ t +:+ " " +:+ rest) with ("Bearer" +:+ String " " (t +:+ String " " rest)).
    rewrite split_at_sep by reflexivity. now rewrite split_at_sep.
Qed.

(** X12.  The token is what stands between the first and the second space
    of the [Authorization] header: text that follows a token after a space
    is ignored, and the request is handled exactly like the one without it. *)
Theorem bearer_trailing_text_ignored (env : Env) (e1 e2 hdrs1 hdrs2 : json) (t rest : string)
    (w : World) :
  Py.get e1 "httpMethod" JNull = Py.get e2 "httpMethod" JNull ->
  Py.get e1 "body" (JStr "{}") = Py.get e2 "body" (JStr "{}") ->
  Py.get e1 "headers" (JObj []) = Ret hdrs1 ->
  Py.get e2 "headers" (JObj []) = Ret hdrs2 ->
  Py.get hdrs1 "Authorization" (JStr "") = Ret (JStr ("Bearer " +:+ t)) ->
  Py.get hdrs2 "Authorization" (JStr "") = Ret (JStr ("Bearer " +:+ t +:+ " " +:+ rest)) ->
  contains " " t = false ->
  Py.split_item (JStr ("Bearer " +:+ t +:+ " " +:+ rest)) 1 = Ret t /\
  handler env e2 w = handler env e1 w.
Proof.
  intros Hm Hbody Hh1 Hh2 Ha1 Ha2 Ht.
  destruct (bearer_split t Ht) as [Hs1 Hs2].
  split; [unfold Py.split_item; now rewrite Hs2 |].
  destruct (Py.get e1 "httpMethod" JNull) as [m |] eqn:Hm1.
  2:{ destruct e1; discriminate. }
  symmetry in Hm.
  destruct (Py.eq_str m "OPTIONS") eqn:Ho.
  - now rewrite (handler_options env e1 m w Hm1 Ho), (handler_options env e2 m w Hm Ho).
  - rewrite (handler_run env e1 m hdrs1 _ w Hm1 Ho Hh1 Ha1).
    rewrite (handler_run env e2 m hdrs2 _ w Hm Ho Hh2 Ha2).
    rewrite Hs1, Hs2, Hbody.
    replace (PyStr.startswith "Bearer " ("Bearer " +:+ t +:+ " " +:+ rest)) with true
      by (symmetry; apply (prefix_append "Bearer ")).
    replace (PyStr.startswith "Bearer " ("Bearer " +:+ t)) with true
      by (symmetry; apply (prefix_append "Bearer ")).
    reflexivity.
Qed.

Lemma bearer_trailing_text_ignored_witness :
  handler Demo.env
    (JObj [("httpMethod", JStr "POST");
           ("headers", JObj [("Authorization", JStr "Bearer tok-u1 and more")]);
           ("body", JStr (Json.dumps Demo.download_body))]) Demo.w_completed
  = handler Demo.env (Demo.request "tok-u1" Demo.download_body) Demo.w_completed.
Proof.
  apply (bearer_trailing_text_ignored Demo.env
           (Demo.request "tok-u1" Demo.download_body)
           (JObj [("httpMethod", JStr "POST");
                  ("headers", JObj [("Authorization", JStr "Bearer tok-u1 and more")]);
                  ("body", JStr (Json.dumps Demo.download_body))])
           (JObj [("Authorization", JStr "Bearer tok-u1")])
           (JObj [("Authorization", JStr "Bearer tok-u1 and more")])
           "tok-u1" "and more" Demo.w_completed); reflexivity.
Defined.

(** X13.  Request-download is read-only: whatever the request and whatever
    the collaborators answer, it leaves the table and the clock as they
    were. *)
Theorem download_is_read_only (env : Env) (req : json) (uid : string) (w : World) :
  files (snd (handle_get_download_url env req uid w)) = files w /\
  ticks (snd (handle_get_download_url env req uid w)) = ticks w.
Proof.
  unfold handle_get_download_url, get_item. munfold.
  destruct (Py.get req "file_id" JNull) as [fid |]; [| split; reflexivity].
  destruct (negb (Py.truthy fid)); [split; reflexivity |]. simpl.
  destruct (dynamo_error env _); [split; reflexivity |].
  destruct fid; try (split; reflexivity). simpl.
  destruct (files w !! _) as [it |]; [| split; reflexivity].
  rewrite create_signed_url_run. simpl. destruct (no_url _); [split; reflexivity |].
  destruct (Py.has_number (file_size it) || _); split; reflexivity.
Qed.

(** X14.  An authenticated request that cannot be dispatched is answered 400
    after Cognito and nothing else has been contacted: a body that is not
    JSON gets [invalid_json], and a body whose [operation] is none of the
    three operation names (whatever its type) gets [invalid_operation]. *)
Theorem undispatchable_request_rejected (env : Env) (event m hdrs : json)
    (a token sub raw : string) (r : string * list (string * string)) (w : World) :
  Py.get event "httpMethod" JNull = Ret m ->
  Py.eq_str m "OPTIONS" = false ->
  Py.get event "headers" (JObj []) = Ret hdrs ->
  Py.get hdrs "Authorization" (JStr "") = Ret (JStr a) ->
  PyStr.startswith "Bearer " a = true ->
  nth_error (PyStr.split " " a) 1 = Some token ->
  jwt_get_unverified_claims env token = Some sub ->
  cognito_get_user env token = Some r ->
  Py.get event "body" (JStr "{}") = Ret (JStr raw) ->
  (json_loads env raw = None ->
   handler env event w = (Ret invalid_json, log_call (CognitoGetUser token) w)) /\
  (forall kvs op,
      json_loads env raw = Some (JObj kvs) ->
      Py.dict_get kvs "operation" = Some op ->
      Py.eq_str op "get_upload_url" = false ->
      Py.eq_str op "complete_upload" = false ->
      Py.eq_str op "get_download_url" = false ->
      handler env event w = (Ret invalid_operation, log_call (CognitoGetUser token) w)).
Proof.
  intros Hm Ho Hh Ha Hb Ht Hj Hc Hr.
  rewrite (handler_run env event m hdrs a w Hm Ho Hh Ha), Hb, Ht, Hj, Hc.
  unfold try_except. mstep Hr. unfold parse_body. split.
  - intros ->. reflexivity.
  - intros kvs op -> Hop H1 H2 H3.
    unfold mbind at 1, M_bind, mret at 1, M_ret.
    unfold dispatch. mstep (Py_get_dict kvs "operation" (JStr "get_upload_url")).
    rewrite Hop. unfold default, id. rewrite H1, H2, H3. reflexivity.
Qed.

Lemma undispatchable_request_rejected_witness :
  handler Lab.env (Demo.request "tok-u1" Lab.unknown_operation_body) Demo.w_completed
  = (Ret invalid_operation, log_call (CognitoGetUser "tok-u1") Demo.w_completed).
Proof.
  destruct (undispatchable_request_rejected Lab.env
              (Demo.request "tok-u1" Lab.unknown_operation_body)
              (JStr "POST") (JObj [("Authorization", JStr "Bearer tok-u1")])
              "Bearer tok-u1" "tok-u1" "u1" (Json.dumps Lab.unknown_operation_body)
              ("alice", [("email", "alice@example.com")]) Demo.w_completed)
    as [_ H]; [reflexivity .. |].
  apply (H [("operation", JStr "delete_file"); ("file_id", JStr Demo.fid)]
           (JStr "delete_file")); reflexivity.
Defined.


(** ** Upload, download and the collaborators *)

Lemma file_id_at_not_empty (uid fname ts : string) : file_id_at uid fname ts <> "".
Proof. unfold file_id_at. destruct uid; discriminate. Qed.

(** What a successful request for an upload URL has done. *)
Lemma handle_get_upload_url_success (env : Env) (req : json) (uid : string) (w : World)
    (resp : Response) :
  fst (handle_get_upload_url env req uid w) = Ret resp ->
  statusCode resp = 200%Z ->
  exists fname url fkvs mkvs,
    let fid := file_id_at uid fname (utcnow env (ticks w)) in
    let w1 := log_call (s3_call fid fname uid "put_object") (advance w) in
    let it := built_item env fid uid fname fkvs mkvs w1 in
    resp = upload_ok url fid /\
    snd (handle_get_upload_url env req uid w)
    = with_files (<[(fid, uid) := it]> (files w))
        (log_call (DynamoPutItem it) (advance (advance w1))).
Proof.
  intros Hr Hs.
  destruct (Py.get req "file_info" (JObj [])) as [fi |] eqn:Hfi;
    [| unfold handle_get_upload_url in Hr; revert Hr; mstep Hfi; discriminate].
  destruct (Py.get req "metadata" (JObj [])) as [md |] eqn:Hmd;
    [| unfold handle_get_upload_url in Hr; revert Hr; mstep Hfi; mstep Hmd; discriminate].
  destruct (validate_file fi) as [errors |] eqn:Hval;
    [| unfold handle_get_upload_url in Hr; revert Hr; mstep Hfi; mstep Hmd; mstep Hval;
       discriminate].
  destruct errors as [| e errors].
  2:{ unfold handle_get_upload_url in Hr. revert Hr. mstep Hfi. mstep Hmd. mstep Hval.
      intros H. injection H as <-. discriminate Hs. }
  destruct (validate_file_name _ _ Hval) as [fname Hname].
  rewrite (handle_get_upload_url_run env req fi md uid fname w Hfi Hmd Hval Hname) in Hr |- *.
  cbv zeta in Hr |- *.
  destruct (no_url _) eqn:Hn.
  { injection Hr as <-. discriminate Hs. }
  destruct (no_url_false _ Hn) as (url & Hu & Hne).
  destruct fi as [| | | | | fkvs]; try discriminate Hval.
  destruct md as [| | | | | mkvs];
    try (cbn [fst] in Hr; injection Hr as <-; discriminate Hs).
  rewrite store_file_metadata_run in Hr |- *. cbv zeta in Hr |- *.
  destruct (dynamo_error env _).
  { cbn [fst] in Hr. injection Hr as <-. discriminate Hs. }
  cbn [fst snd] in Hr |- *. injection Hr as <-.
  exists fname, url, fkvs, mkvs. cbv zeta. rewrite Hu. split; reflexivity.
Qed.

(** X15.  Upload and download meet at one object: when a request for an
    upload URL succeeds, the URL was presigned for the [s3_key] of the
    record it created, and a later request-download of that file id by the
    same owner, on the table as the upload left it, asks S3 for a
    [get_object] URL of that very key. *)
Theorem upload_then_download_same_key (env env' : Env) (req req' : json) (uid : string)
    (w : World) (resp : Response) :
  fst (handle_get_upload_url env req uid w) = Ret resp ->
  statusCode resp = 200%Z ->
  exists fid url key ct it,
    resp = upload_ok url fid /\
    calls (snd (handle_get_upload_url env req uid w))
    = (calls w ++ [S3GeneratePresignedUrl "put_object" key (Some ct); DynamoPutItem it])%list /\
    files (snd (handle_get_upload_url env req uid w)) !! (fid, uid) = Some it /\
    s3_key it = key /\
    (Py.get req' "file_id" JNull = Ret (JStr fid) ->
     dynamo_error env' (DynamoGetItem (JStr fid) uid) = None ->
     forall w1,
       files w1 = files (snd (handle_get_upload_url env req uid w)) ->
       calls (snd (handle_get_download_url env' req' uid w1))
       = (calls w1 ++ [DynamoGetItem (JStr fid) uid;
                       S3GeneratePresignedUrl "get_object" key None])%list).
Proof.
  intros Hr Hs.
  destruct (handle_get_upload_url_success env req uid w resp Hr Hs)
    as (fname & url & fkvs & mkvs & H). cbv zeta in H. destruct H as [-> Hw].
  rewrite Hw.
  eexists _, url, _, _, _. split; [reflexivity |].
  split; [cbn [calls with_files log_call advance]; rewrite <- app_assoc; reflexivity |].
  split; [cbn [files with_files]; apply lookup_insert_eq |].
  split; [reflexivity |].
  intros Hget Hd w1 Hf.
  rewrite (handle_get_download_url_run env' req' uid _ w1 Hget (file_id_at_not_empty _ _ _)).
  cbv zeta. rewrite Hd, Hf. cbn [files with_files]. rewrite lookup_insert_eq.
  cbn [snd calls log_call]. rewrite <- app_assoc. reflexivity.
Qed.

Lemma upload_then_download_same_key_witness :
  exists fid url key ct it,
    upload_ok
      "https://media.s3.amazonaws.com/uploads/u1/u1_982480fb/photo.jpg?X-Amz-Expires=3600&op=put_object"
      Demo.fid = upload_ok url fid /\
    calls (snd (handle_get_upload_url Demo.env Demo.upload_body "u1" Demo.empty_world))
    = (calls Demo.empty_world
       ++ [S3GeneratePresignedUrl "put_object" key (Some ct); DynamoPutItem it])%list /\
    files (snd (handle_get_upload_url Demo.env Demo.upload_body "u1" Demo.empty_world))
      !! (fid, "u1") = Some it /\
    s3_key it = key /\
    (Py.get Demo.download_body "file_id" JNull = Ret (JStr fid) ->
     dynamo_error Demo.env (DynamoGetItem (JStr fid) "u1") = None ->
     forall w1,
       files w1
       = files (snd (handle_get_upload_url Demo.env Demo.upload_body "u1" Demo.empty_world)) ->
       calls (snd (handle_get_download_url Demo.env Demo.download_body "u1" w1))
       = (calls w1 ++ [DynamoGetItem (JStr fid) "u1";
                       S3GeneratePresignedUrl "get_object" key None])%list).
Proof.
  apply (upload_then_download_same_key Demo.env Demo.env Demo.upload_body Demo.download_body
           "u1" Demo.empty_world); vm_compute; reflexivity.
Defined.

Lemma adds_nothing (w : World) : adds w w [].
Proof. split; [now rewrite app_nil_r | lia]. Qed.

Lemma handle_get_upload_url_calls (env : Env) (req : json) (uid : string) (w : World) :
  exists ops, operation_calls ops /\ adds w (snd (handle_get_upload_url env req uid w)) ops.
Proof.
  destruct (Py.get req "file_info" (JObj [])) as [fi |] eqn:Hfi;
    [| unfold handle_get_upload_url; mstep Hfi; exists []; split;
       [constructor | apply adds_nothing]].
  destruct (Py.get req "metadata" (JObj [])) as [md |] eqn:Hmd;
    [| unfold handle_get_upload_url; mstep Hfi; mstep Hmd; exists []; split;
       [constructor | apply adds_nothing]].
  destruct (validate_file fi) as [errors |] eqn:Hval;
    [| unfold handle_get_upload_url; mstep Hfi; mstep Hmd; mstep Hval; exists []; split;
       [constructor | apply adds_nothing]].
  destruct errors as [| e errors];
    [| unfold handle_get_upload_url; mstep Hfi; mstep Hmd; mstep Hval; exists []; split;
       [constructor | apply adds_nothing]].
  destruct (validate_file_name _ _ Hval) as [fname Hname].
  rewrite (handle_get_upload_url_run env req fi md uid fname w Hfi Hmd Hval Hname).
  cbv zeta. unfold s3_call, s3_operation, s3_content_type. cbn [String.eqb Ascii.eqb Bool.eqb].
  destruct (no_url _).
  { eexists. split; [apply calls_put_url |]. split; cbn; [reflexivity | lia]. }
  cbn [snd].
  destruct fi as [| | | | | fkvs]; try discriminate Hval.
  destruct md as [| | | | | mkvs];
    try (rewrite store_file_metadata_bad_metadata by discriminate;
         eexists; split; [apply calls_put_url |]; split; cbn; [reflexivity | lia]).
  rewrite store_file_metadata_run. cbv zeta.
  destruct (dynamo_error env _);
    (eexists; split; [apply calls_put_url_item |]; split; cbn;
     [rewrite <- app_assoc; reflexivity | lia]).
Qed.

Lemma handle_complete_upload_calls (env : Env) (req : json) (uid : string) (w : World) :
  exists ops, operation_calls ops /\ adds w (snd (handle_complete_upload env req uid w)) ops.
Proof.
  unfold handle_complete_upload.
  destruct (Py.get req "file_id" JNull) as [fid |] eqn:Hget; mstep Hget;
    [| exists []; split; [constructor | apply adds_nothing]].
  destruct (negb (Py.truthy fid));
    [exists []; split; [constructor | apply adds_nothing] |].
  unfold update_item. msimpl.
  assert (Hone : forall (f : gmap (string * string) Item),
             adds w {| files := f; ticks := S (ticks w);
                       calls := calls w ++ [DynamoUpdateItem fid uid (utcnow env (ticks w))] |}
               [DynamoUpdateItem fid uid (utcnow env (ticks w))]).
  { intros f. split; cbn; [reflexivity | lia]. }
  exists [DynamoUpdateItem fid uid (utcnow env (ticks w))]. split; [constructor |].
  destruct (dynamo_error env _) as [e |].
  { destruct e; msimpl; try apply Hone. destruct (String.eqb _ _); apply Hone. }
  destruct fid as [| | | f | |]; msimpl; try apply Hone.
  destruct (files w !! (f, uid)) as [it |]; [| apply Hone].
  destruct (String.eqb (user_id it) uid); apply Hone.
Qed.

Lemma handle_get_download_url_calls (env : Env) (req : json) (uid : string) (w : World) :
  exists ops, operation_calls ops /\ adds w (snd (handle_get_download_url env req uid w)) ops.
Proof.
  unfold handle_get_download_url, get_item. munfold.
  destruct (Py.get req "file_id" JNull) as [fid |];
    [| exists []; split; [constructor | apply adds_nothing]].
  destruct (negb (Py.truthy fid));
    [exists []; split; [constructor | apply adds_nothing] |]. simpl.
  destruct (dynamo_error env _);
    [eexists; split; [apply calls_get |]; split; msimpl; [reflexivity | lia] |].
  destruct fid;
    try (eexists; split; [apply calls_get |]; split; msimpl; [reflexivity | lia]). simpl.
  destruct (files w !! _) as [it |];
    [| eexists; split; [apply calls_get |]; split; msimpl; [reflexivity | lia]].
  rewrite create_signed_url_run. simpl.
  destruct (no_url _); [| destruct (Py.has_number (file_size it) || _)];
    (eexists; split; [apply calls_get_url |]; split; msimpl;
     [rewrite <- app_assoc; reflexivity | lia]).
Qed.

Lemma dispatch_calls (env : Env) (req : json) (uid : string) (w : World) :
  exists ops, operation_calls ops /\ adds w (snd (dispatch env req uid w)) ops.
Proof.
  unfold dispatch.
  destruct (Py.get req "operation" (JStr "get_upload_url")) as [op |] eqn:Hop; mstep Hop;
    [| exists []; split; [constructor | apply adds_nothing]].
  destruct (Py.eq_str op "get_upload_url"); [apply handle_get_upload_url_calls |].
  destruct (Py.eq_str op "complete_upload"); [apply handle_complete_upload_calls |].
  destruct (Py.eq_str op "get_download_url"); [apply handle_get_download_url_calls |].
  exists []. split; [constructor | apply adds_nothing].
Qed.

Lemma handler_calls_aux (env : Env) (event : json) (w w' : World) :
  snd (handler env event w) = w' ->
  exists new,
    adds w w' new /\
    (new = [] \/
     exists token ops,
       bearer_token event = Some token /\ new = CognitoGetUser token :: ops /\
       operation_calls ops /\
       (ops <> [] -> principal env event <> None)).
Proof.
  unfold handler, principal, bearer_token. rewrite snd_try_except_const.
  assert (Hnone : w = w' -> exists new, adds w w' new /\
            (new = [] \/
             exists token ops,
               bearer_token event = Some token /\ new = CognitoGetUser token :: ops /\
               operation_calls ops /\ (ops <> [] -> principal env event <> None))).
  { intros <-. exists []. split; [apply adds_nothing | now left]. }
  unfold principal, bearer_token in Hnone.
  destruct (Py.get event "httpMethod" JNull) as [m |] eqn:Hm; mstep Hm; [| exact Hnone].
  destruct (Py.eq_str m "OPTIONS"); [exact Hnone |].
  destruct (Py.get event "headers" (JObj [])) as [hdrs |] eqn:Hh; mstep Hh; [| exact Hnone].
  destruct (Py.get hdrs "Authorization" (JStr "")) as [a |] eqn:Ha; mstep Ha;
    [| exact Hnone].
  destruct (Py.startswith a "Bearer ") as [b |] eqn:Hb; mstep Hb; [| exact Hnone].
  destruct b; [| exact Hnone]. cbn [negb].
  destruct (Py.split_item a 1) as [token |] eqn:Ht; mstep Ht; [| exact Hnone].
  clear Hnone.
  destruct a as [| | | a | |]; try discriminate Hb.
  cbn in Hb. injection Hb as Hb. rewrite Hb.
  unfold Py.split_item in Ht.
  destruct (nth_error (PyStr.split " " a) 1) as [token' |]; [| discriminate Ht].
  injection Ht as ->.
  unfold mbind at 1, M_bind. rewrite verify_token_run.
  destruct (jwt_get_unverified_claims env token) as [sub |].
  2:{ intros <-. exists []. split; [apply adds_nothing | now left]. }
  assert (Hauth : forall ops w1,
             operation_calls ops ->
             (ops <> [] -> cognito_get_user env token <> None) ->
             adds (log_call (CognitoGetUser token) w) w1 ops ->
             exists new,
               adds w w1 new /\
               (new = [] \/
                exists token0 ops0,
                  Some token = Some token0 /\ new = CognitoGetUser token0 :: ops0 /\
                  operation_calls ops0 /\
                  (ops0 <> [] ->
                   match cognito_get_user env token with
                   | Some _ => Some sub
                   | None => None
                   end <> None))).
  { intros ops w1 Hops Hc [Hcalls Hticks]. exists (CognitoGetUser token :: ops).
    split.
    - split; [rewrite Hcalls; cbn; now rewrite <- app_assoc | exact Hticks].
    - right. exists token, ops. repeat split; try assumption.
      intros Hne. specialize (Hc Hne). destruct (cognito_get_user env token); congruence. }
  destruct (cognito_get_user env token) as [r |] eqn:Hc.
  2:{ intros <-. apply (Hauth []); [constructor | congruence | apply adds_nothing]. }
  cbn [fmap option_fmap option_map].
  assert (Hw1 : forall w1, log_call (CognitoGetUser token) w = w1 ->
             exists new,
               adds w w1 new /\
               (new = [] \/
                exists token0 ops0,
                  Some token = Some token0 /\ new = CognitoGetUser token0 :: ops0 /\
                  operation_calls ops0 /\ (ops0 <> [] -> Some sub <> None))).
  { intros w1 <-. apply (Hauth []); [constructor | congruence | apply adds_nothing]. }
  destruct (Py.get event "body" (JStr "{}")) as [raw |] eqn:Hr; mstep Hr; [| apply Hw1].
  unfold parse_body.
  destruct raw as [| | | s | |]; try apply Hw1.
  destruct (json_loads env s) as [req |]; [| apply Hw1].
  intros <-.
  destruct (dispatch_calls env req sub (log_call (CognitoGetUser token) w))
    as (ops & Hops & Hadds).
  apply (Hauth ops); [exact Hops | congruence | exact Hadds].
Qed.

(** X16.  One request makes at most three calls to the collaborators and
    never repeats one: [handler] adds to the log nothing, or the Cognito
    call for the token of the request followed by the calls of one
    operation (a presigned [put_object] URL and then a [put_item]; one
    [update_item]; one [get_item] and then a presigned [get_object] URL; or
    a prefix of these).  S3 and DynamoDB are only called for a request with
    a verified principal, and the clock is read at most three times. *)
Theorem handler_calls (env : Env) (event : json) (w : World) :
  exists new,
    calls (snd (handler env event w)) = (calls w ++ new)%list /\
    ticks w <= ticks (snd (handler env event w)) <= ticks w + 3 /\
    (new = [] \/
     exists token ops,
       bearer_token event = Some token /\ new = CognitoGetUser token :: ops /\
       operation_calls ops /\
       (ops <> [] -> principal env event <> None)).
Proof.
  destruct (handler_calls_aux env event w _ eq_refl) as (new & [Hc Ht] & H).
  exists new. auto.
Qed.


(** ** Round trip and malformed events *)

(** X17.  What request-download answers after an upload.  After a
    successful request for an upload URL, the record under the returned file
    id holds the declared name, the category of its extension, the declared
    size and the title, description and tags of the upload request (the
    name, the empty text and the empty list when none was given).  A
    request-download of that file id by the same owner, on the table as the
    upload left it, when DynamoDB serves the read and S3 returns a URL: is
    answered 500 [internal_error] when a number occurs in the size, the
    title, the description or the tags, because the number is read back as a
    [Decimal], which [json.dumps] refuses; and is answered 200 with those
    values otherwise.  A declared size that is an integer is such a
    number. *)
Theorem upload_then_download_answers (env env' : Env) (kvs : list (string * json))
    (req' : json) (uid : string) (w w1 : World) (resp : Response) :
  fst (handle_get_upload_url env (JObj kvs) uid w) = Ret resp ->
  statusCode resp = 200%Z ->
  files w1 = files (snd (handle_get_upload_url env (JObj kvs) uid w)) ->
  (forall c, dynamo_error env' c = None) ->
  (forall key, exists url, generate_presigned_url env' "get_object" key None = Some url /\
                           url <> "") ->
  exists fid url url' fname fkvs mkvs it,
    resp = upload_ok url fid /\
    default (JObj []) (Py.dict_get kvs "file_info") = JObj fkvs /\
    default (JObj []) (Py.dict_get kvs "metadata") = JObj mkvs /\
    Py.dict_get fkvs "name" = Some (JStr fname) /\
    files w1 !! (fid, uid) = Some it /\
    (Py.get req' "file_id" JNull = Ret (JStr fid) ->
     fst (handle_get_download_url env' req' uid w1)
     = Ret (if holds_number it then internal_error else download_ok url' it)) /\
    ((exists z, default (JInt 0) (Py.dict_get fkvs "size") = JInt z) ->
     holds_number it = true) /\
    filename it = fname /\
    category_of (extension fname) = Some (file_type it) /\
    file_size it = default (JInt 0) (Py.dict_get fkvs "size") /\
    title it = default (JStr fname) (Py.dict_get mkvs "title") /\
    description it = default (JStr "") (Py.dict_get mkvs "description") /\
    tags it = default (JArr []) (Py.dict_get mkvs "tags").
Proof.
  intros Hr Hs Hf Hd Hurl.
  destruct (Py.get (JObj kvs) "file_info" (JObj [])) as [fi |] eqn:Hfi; [| discriminate Hfi].
  destruct (Py.get (JObj kvs) "metadata" (JObj [])) as [md |] eqn:Hmd; [| discriminate Hmd].
  destruct (validate_file fi) as [errors |] eqn:Hval;
    [| unfold handle_get_upload_url in Hr; revert Hr; mstep Hfi; mstep Hmd; mstep Hval;
       discriminate].
  destruct errors as [| e errors].
  2:{ unfold handle_get_upload_url in Hr. revert Hr. mstep Hfi. mstep Hmd. mstep Hval.
      intros H. injection H as <-. discriminate Hs. }
  destruct (validate_file_name _ _ Hval) as [fname Hname].
  rewrite (handle_get_upload_url_run env (JObj kvs) fi md uid fname w Hfi Hmd Hval Hname)
    in Hr, Hf.
  cbv zeta in Hr, Hf.
  destruct (no_url _) eqn:Hn.
  { injection Hr as <-. discriminate Hs. }
  destruct (no_url_false _ Hn) as (url & Hu & Hne).
  destruct fi as [| | | | | fkvs]; try discriminate Hval.
  destruct md as [| | | | | mkvs];
    try (cbn [fst] in Hr; injection Hr as <-; discriminate Hs).
  rewrite store_file_metadata_run in Hr, Hf. cbv zeta in Hr, Hf.
  destruct (dynamo_error env _).
  { cbn [fst] in Hr. injection Hr as <-. discriminate Hs. }
  cbn [fst snd files with_files] in Hr, Hf. injection Hr as <-.
  destruct (validate_file_accepts fkvs Hval) as (fname' & Hn' & _ & He & Hnn & _).
  assert (fname' = fname) as -> by congruence.
  destruct (category_of_allowed _ He) as [c Hc].
  match type of Hf with
  | _ = <[(?fid, _) := ?it]> _ =>
      destruct (Hurl (s3_key_of uid fid (filename it))) as (url' & Hu' & Hne');
      exists fid, url, url', fname, fkvs, mkvs, it
  end.
  rewrite Hu. injection Hfi as <-. injection Hmd as <-.
  split; [reflexivity |]. split; [reflexivity |]. split; [reflexivity |].
  split.
  { unfold Py.get in Hname. injection Hname as Hname.
    destruct (Py.dict_get fkvs "name") as [v |]; cbn in Hname; [now subst v |].
    injection Hname as <-. now destruct Hnn. }
  split; [rewrite Hf; apply lookup_insert_eq |].
  split.
  { intros Hget.
    rewrite (handle_get_download_url_run env' req' uid _ w1 Hget (file_id_at_not_empty _ _ _)).
    cbv zeta. rewrite Hd, Hf, lookup_insert_eq. cbn [fst].
    cbn [filename built_item new_item] in Hu' |- *. rewrite Hu'.
    assert (Hno : no_url (Some url') = false).
    { cbn. destruct (String.eqb url' "") eqn:E; [| reflexivity].
      apply String.eqb_eq in E. contradiction. }
    rewrite Hno. reflexivity. }
  split.
  { intros [z Hz]. unfold holds_number.
    cbn [file_size built_item new_item existsb]. rewrite Hz. reflexivity. }
  cbn [filename file_type file_size title description tags built_item new_item].
  rewrite Hc. repeat split; reflexivity.
Qed.

Lemma upload_then_download_answers_witness :
  exists fid url url' fname fkvs mkvs it,
    upload_ok
      "https://media.s3.amazonaws.com/uploads/u1/u1_982480fb/photo.jpg?X-Amz-Expires=3600&op=put_object"
      Demo.fid = upload_ok url fid /\
    default (JObj [])
      (Py.dict_get
         [("operation", JStr "get_upload_url");
          ("file_info", JObj [("name", JStr "photo.jpg"); ("size", JInt 1024);
                              ("type", JStr "image/jpeg")]);
          ("metadata", JObj [("title", JStr "Holiday"); ("description", JStr "Beach");
                             ("tags", JArr [JStr "family"])])] "file_info") = JObj fkvs /\
    default (JObj [])
      (Py.dict_get
         [("operation", JStr "get_upload_url");
          ("file_info", JObj [("name", JStr "photo.jpg"); ("size", JInt 1024);
                              ("type", JStr "image/jpeg")]);
          ("metadata", JObj [("title", JStr "Holiday"); ("description", JStr "Beach");
                             ("tags", JArr [JStr "family"])])] "metadata") = JObj mkvs /\
    Py.dict_get fkvs "name" = Some (JStr fname) /\
    files (snd (handle_get_upload_url Demo.env Demo.upload_body "u1" Demo.empty_world))
      !! (fid, "u1") = Some it /\
    (Py.get Demo.download_body "file_id" JNull = Ret (JStr fid) ->
     fst (handle_get_download_url Demo.env Demo.download_body "u1"
            (snd (handle_get_upload_url Demo.env Demo.upload_body "u1" Demo.empty_world)))
     = Ret (if holds_number it then internal_error else download_ok url' it)) /\
    ((exists z, default (JInt 0) (Py.dict_get fkvs "size") = JInt z) ->
     holds_number it = true) /\
    filename it = fname /\
    category_of (extension fname) = Some (file_type it) /\
    file_size it = default (JInt 0) (Py.dict_get fkvs "size") /\
    title it = default (JStr fname) (Py.dict_get mkvs "title") /\
    description it = default (JStr "") (Py.dict_get mkvs "description") /\
    tags it = default (JArr []) (Py.dict_get mkvs "tags").
Proof.
  apply (upload_then_download_answers Demo.env Demo.env
           [("operation", JStr "get_upload_url");
            ("file_info", JObj [("name", JStr "photo.jpg"); ("size", JInt 1024);
                                ("type", JStr "image/jpeg")]);
            ("metadata", JObj [("title", JStr "Holiday"); ("description", JStr "Beach");
                               ("tags", JArr [JStr "family"])])]
           Demo.download_body "u1" Demo.empty_world).
  - vm_compute. reflexivity.
  - reflexivity.
  - reflexivity.
  - reflexivity.
  - intros key. eexists. split; [reflexivity | discriminate].
Defined.

(** X18.  A malformed event is an internal error, not an authentication
    failure: for a request that is not a preflight, a [headers] entry that
    is present but not a dictionary (null, for instance), or an
    [Authorization] value that is not a string, makes [handler] answer 500
    and leave the world as it was. *)
Theorem malformed_headers_are_internal_error (env : Env) (event m hdrs : json) (w : World) :
  Py.get event "httpMethod" JNull = Ret m ->
  Py.eq_str m "OPTIONS" = false ->
  Py.get event "headers" (JObj []) = Ret hdrs ->
  ((forall kvs, hdrs <> JObj kvs) -> handler env event w = (Ret internal_error, w)) /\
  (forall v, Py.get hdrs "Authorization" (JStr "") = Ret v ->
             (forall s, v <> JStr s) ->
             handler env event w = (Ret internal_error, w)).
Proof.
  intros Hm Ho Hh. split.
  - intros Hbad. unfold handler, try_except. mstep Hm. rewrite Ho. mstep Hh.
    destruct hdrs; try reflexivity. now destruct (Hbad kvs).
  - intros v Hv Hbad. unfold handler, try_except. mstep Hm. rewrite Ho. mstep Hh. mstep Hv.
    destruct v; try reflexivity. now destruct (Hbad s).
Qed.

Lemma malformed_headers_are_internal_error_witness :
  handler Demo.env
    (JObj [("httpMethod", JStr "POST"); ("headers", JNull); ("body", JStr "{}")])
    Demo.w_completed
  = (Ret internal_error, Demo.w_completed).
Proof.
  destruct (malformed_headers_are_internal_error Demo.env
              (JObj [("httpMethod", JStr "POST"); ("headers", JNull); ("body", JStr "{}")])
              (JStr "POST") JNull Demo.w_completed eq_refl eq_refl eq_refl) as [H _].
  apply H. intros kvs. discriminate.
Defined.

(** X19.  The default body applies to an absent [body] entry only.  For an
    authenticated request: when the entry is present but not a string (the
    null of a request without body, for instance) the answer is 500; when
    the entry is absent the text [{}] is parsed instead, and if it parses to
    the empty dictionary the request is a request-upload without file
    information, answered 400 with the type and the name violation.  In both
    cases only Cognito has been contacted. *)
Theorem body_absent_or_not_text (env : Env) (event m hdrs : json) (a token sub : string)
    (r : string * list (string * string)) (w : World) :
  Py.get event "httpMethod" JNull = Ret m ->
  Py.eq_str m "OPTIONS" = false ->
  Py.get event "headers" (JObj []) = Ret hdrs ->
  Py.get hdrs "Authorization" (JStr "") = Ret (JStr a) ->
  PyStr.startswith "Bearer " a = true ->
  nth_error (PyStr.split " " a) 1 = Some token ->
  jwt_get_unverified_claims env token = Some sub ->
  cognito_get_user env token = Some r ->
  (forall v, Py.get event "body" (JStr "{}") = Ret v ->
             (forall s, v <> JStr s) ->
             handler env event w = (Ret internal_error, log_call (CognitoGetUser token) w)) /\
  (forall kvs, event = JObj kvs ->
               Py.dict_get kvs "body" = None ->
               json_loads env "{}" = Some (JObj []) ->
               handler env event w
               = (Ret (validation_failed [type_error ""; name_error]),
                  log_call (CognitoGetUser token) w)).
Proof.
  intros Hm Ho Hh Ha Hb Ht Hj Hc.
  rewrite (handler_run env event m hdrs a w Hm Ho Hh Ha), Hb, Ht, Hj, Hc.
  unfold try_except. split.
  - intros v Hv Hbad. mstep Hv. unfold parse_body.
    destruct v; try reflexivity. now destruct (Hbad s).
  - intros kvs -> Hbody Hl.
    rewrite Py_get_dict, Hbody. cbn [default from_option].
    rewrite bind_lift_ret. cbn beta. unfold parse_body. rewrite Hl.
    reflexivity.
Qed.

Lemma body_absent_or_not_text_witness :
  handler Demo.env
    (JObj [("httpMethod", JStr "POST");
           ("headers", JObj [("Authorization", JStr "Bearer tok-u1")]);
           ("body", JNull)]) Demo.w_completed
  = (Ret internal_error, log_call (CognitoGetUser "tok-u1") Demo.w_completed) /\
  handler Demo.env
    (JObj [("httpMethod", JStr "POST");
           ("headers", JObj [("Authorization", JStr "Bearer tok-u1")])]) Demo.w_completed
  = (Ret (validation_failed [type_error ""; name_error]),
     log_call (CognitoGetUser "tok-u1") Demo.w_completed).
Proof.
  split.
  - destruct (body_absent_or_not_text Demo.env
                (JObj [("httpMethod", JStr "POST");
                       ("headers", JObj [("Authorization", JStr "Bearer tok-u1")]);
                       ("body", JNull)])
                (JStr "POST") (JObj [("Authorization", JStr "Bearer tok-u1")])
                "Bearer tok-u1" "tok-u1" "u1" ("alice", [("email", "alice@example.com")])
                Demo.w_completed) as [H _]; [reflexivity .. |].
    apply (H JNull); [reflexivity | intros s; discriminate].
  - destruct (body_absent_or_not_text Demo.env
                (JObj [("httpMethod", JStr "POST");
                       ("headers", JObj [("Authorization", JStr "Bearer tok-u1")])])
                (JStr "POST") (JObj [("Authorization", JStr "Bearer tok-u1")])
                "Bearer tok-u1" "tok-u1" "u1" ("alice", [("email", "alice@example.com")])
                Demo.w_completed) as [_ H]; [reflexivity .. |].
    apply (H [("httpMethod", JStr "POST");
              ("headers", JObj [("Authorization", JStr "Bearer tok-u1")])]);
      [reflexivity | reflexivity | vm_compute; reflexivity].
Defined.

